(** * CosmicCompass: the response normalizers of [SpaceImageExplorer]

    A shallow embedding of the four request handlers of [src/main.py]
    ([get_daily_nasa_image], [search_nasa_images], [chat_with_space_expert],
    [get_space_weather] with its two formatters) and the properties the
    specification states about them.

    Conventions of the embedding.

    - A Python [str] is a Rocq [string] holding its UTF-8 bytes.  The emoji
      of the source are therefore ordinary string literals.
    - A value decoded from JSON (and any value stored in a result dict) is a
      [pyval].
    - Code that may raise runs in the error monad [result]; a
      [try ... except Exception] block is a [match] on the result of its
      body.  The type [exn] stands for the instances of Python's
      [Exception] class, which is what [except Exception] catches.
    - The collaborators (the HTTP client, the tokenizer and the model, the
      random source, the clock) are arguments of the handlers. *)

From Stdlib Require Import String Ascii List ZArith Lia Bool Arith.
From Stdlib Require Import Numbers.DecimalString.
Import ListNotations.
Open Scope string_scope.

(** ** Strings *)

Module Str.

Definition char (n : nat) : string := String (ascii_of_nat n) "".

Fixpoint bytes (l : list nat) : string :=
  match l with
  | [] => ""
  | n :: l' => String (ascii_of_nat n) (bytes l')
  end.

Definition newline : string := char 10.

(** [str.lower()].  The bytes of the ASCII capitals are mapped to the small
    letters.  Python also lowers capitals outside ASCII; their UTF-8 bytes
    are all above 127, before and after, so this makes no difference to a
    search for an ASCII needle, with two exceptions that cannot produce a
    match for the needles of this program: U+212A lowers to [k], and
    U+0130 lowers to [i] followed by the combining mark U+0307. *)
Definition lower_ascii (c : ascii) : ascii :=
  let n := nat_of_ascii c in
  if ((65 <=? n) && (n <=? 90))%nat then ascii_of_nat (n + 32) else c.

Fixpoint lower (s : string) : string :=
  match s with
  | "" => ""
  | String c s' => String (lower_ascii c) (lower s')
  end.

(** [needle in hay] for two strings. *)
Fixpoint contains (needle hay : string) : bool :=
  prefix needle hay ||
  match hay with
  | "" => false
  | String _ hay' => contains needle hay'
  end.

(** The code points of a string: a byte of the form 10xxxxxx continues
    the code point begun before it. *)
Definition is_continuation (c : ascii) : bool :=
  let n := nat_of_ascii c in ((128 <=? n) && (n <=? 191))%nat.

Definition starts_with_continuation (s : string) : bool :=
  match s with
  | "" => false
  | String c _ => is_continuation c
  end.

Fixpoint chars (s : string) : list string :=
  match s with
  | "" => []
  | String c s' =>
      match chars s' with
      | h :: t =>
          if starts_with_continuation h then String c h :: t
          else String c "" :: h :: t
      | [] => [String c ""]
      end
  end.

(** The code points for which [str.isspace()] holds: U+0009..U+000D,
    U+001C..U+0020, U+0085, U+00A0, U+1680, U+2000..U+200A, U+2028,
    U+2029, U+202F, U+205F, U+3000. *)
Definition whitespace : list string :=
  map bytes
    [ [9]; [10]; [11]; [12]; [13]; [28]; [29]; [30]; [31]; [32];
      [194; 133]; [194; 160]; [225; 154; 128];
      [226; 128; 128]; [226; 128; 129]; [226; 128; 130]; [226; 128; 131];
      [226; 128; 132]; [226; 128; 133]; [226; 128; 134]; [226; 128; 135];
      [226; 128; 136]; [226; 128; 137]; [226; 128; 138];
      [226; 128; 168]; [226; 128; 169]; [226; 128; 175];
      [226; 129; 159]; [227; 128; 128] ].

Definition isspace (ch : string) : bool :=
  existsb (String.eqb ch) whitespace.

Fixpoint drop_while (p : string -> bool) (l : list string) : list string :=
  match l with
  | [] => []
  | x :: l' => if p x then drop_while p l' else l
  end.

(** [str.strip()] with no argument. *)
Definition strip (s : string) : string :=
  let l := drop_while isspace (chars s) in
  String.concat "" (rev (drop_while isspace (rev l))).

(** [s.split(sep)] for a non-empty [sep]: the pieces between the
    occurrences of [sep], found from the left and never overlapping.
    [skip] counts the bytes of a found separator still to pass over and
    [cur] is the piece being read. *)
Fixpoint split_go (sep s : string) (skip : nat) (cur : string) : list string :=
  match s with
  | "" => [cur]
  | String c s' =>
      match skip with
      | S k => split_go sep s' k cur
      | O =>
          if prefix sep s
          then cur :: split_go sep s' (String.length sep - 1) ""
          else split_go sep s' 0 (cur ++ String c "")
      end
  end.

Definition split (sep s : string) : list string := split_go sep s 0 "".

(** [s[n:]] on bytes. *)
Fixpoint drop (n : nat) (s : string) : string :=
  match n, s with
  | S k, String _ s' => drop k s'
  | _, _ => s
  end.

(** None of the first [n] bytes of [s] is [c]. *)
Fixpoint lacks (c : ascii) (n : nat) (s : string) : bool :=
  match n, s with
  | S k, String d s' => negb (Ascii.eqb d c) && lacks c k s'
  | _, _ => true
  end.

(** [str(n)] for an [int]. *)
Definition of_Z (n : Z) : string := NilZero.string_of_int (Z.to_int n).

(** A number on two digits, as [%I] and [%M] print it. *)
Definition two_digits (n : nat) : string :=
  (if (n <? 10)%nat then "0" else "") ++ of_Z (Z.of_nat n).

End Str.

(** ** Python values, exceptions and the error monad *)

(** A [float] is carried by the two observations this program can make of
    it: its [str()] and its truth value. *)
Record pyfloat := { float_repr : string; float_nonzero : bool }.

(** The values [response.json()] returns.  A [dict] is the list of its
    items; a key is looked up from the front. *)
#[warnings="-register-all"]
Inductive pyval :=
| PNone
| PBool (b : bool)
| PInt (n : Z)
| PFloat (f : pyfloat)
| PStr (s : string)
| PList (l : list pyval)
| PDict (kv : list (string * pyval)).

(** Instances of [Exception].  The four built-in classes the interpreter
    raises in the modelled code carry the text [str(e)] is made of (worded as
    CPython 3.11 does); [Raised] is any exception a collaborator raises,
    given by its [str(e)]. *)
Inductive exn :=
| KeyError (key_repr : string)
| IndexError (msg : string)
| TypeError (msg : string)
| AttributeError (msg : string)
| Raised (descr : string).

Definition str_exn (e : exn) : string :=
  match e with
  | KeyError r => r
  | IndexError m | TypeError m | AttributeError m => m
  | Raised d => d
  end.

Inductive result (A : Type) :=
| Ok (a : A)
| Raise (e : exn).

Arguments Ok {A} a.
Arguments Raise {A} e.

Definition bind {A B : Type} (c : result A) (k : A -> result B) : result B :=
  match c with
  | Ok a => k a
  | Raise e => Raise e
  end.

Declare Scope py_scope.
Delimit Scope py_scope with py.
Notation "x <- c ;; k" := (bind c (fun x => k))
  (at level 61, c at next level, right associativity) : py_scope.
Open Scope py_scope.

Definition raised {A : Type} (c : result A) : bool :=
  match c with
  | Ok _ => false
  | Raise _ => true
  end.

Module Py.

Definition type_name (v : pyval) : string :=
  match v with
  | PNone => "NoneType"
  | PBool _ => "bool"
  | PInt _ => "int"
  | PFloat _ => "float"
  | PStr _ => "str"
  | PList _ => "list"
  | PDict _ => "dict"
  end.

(** [bool(v)], as [if v:] and [a and b] test it. *)
Definition truthy (v : pyval) : bool :=
  match v with
  | PNone => false
  | PBool b => b
  | PInt n => negb (n =? 0)%Z
  | PFloat f => float_nonzero f
  | PStr s => negb (s =? "")
  | PList l => match l with [] => false | _ => true end
  | PDict kv => match kv with [] => false | _ => true end
  end.

Fixpoint lookup (k : string) (kv : list (string * pyval)) : option pyval :=
  match kv with
  | [] => None
  | (k', v) :: kv' => if k =? k' then Some v else lookup k kv'
  end.

Definition not_subscriptable (v : pyval) : exn :=
  TypeError ("'" ++ type_name v ++ "' object is not subscriptable").

(** [v[k]] for a string [k]. *)
Definition getitem (v : pyval) (k : string) : result pyval :=
  match v with
  | PDict kv =>
      match lookup k kv with
      | Some x => Ok x
      | None => Raise (KeyError ("'" ++ k ++ "'"))
      end
  | PList _ => Raise (TypeError "list indices must be integers or slices, not str")
  | PStr _ => Raise (TypeError "string indices must be integers, not 'str'")
  | _ => Raise (not_subscriptable v)
  end.

(** [v[0]]. *)
Definition getitem0 (v : pyval) : result pyval :=
  match v with
  | PList l =>
      match l with
      | x :: _ => Ok x
      | [] => Raise (IndexError "list index out of range")
      end
  | PStr s =>
      match Str.chars s with
      | c :: _ => Ok (PStr c)
      | [] => Raise (IndexError "string index out of range")
      end
  | PDict _ => Raise (KeyError "0")
  | _ => Raise (not_subscriptable v)
  end.

Definition is_str (k : string) (v : pyval) : bool :=
  match v with
  | PStr s => k =? s
  | _ => false
  end.

(** [k in v] for a string [k]: a key of a dict, an element of a list, a
    substring of a string. *)
Definition contains (k : string) (v : pyval) : result bool :=
  match v with
  | PDict kv => Ok (match lookup k kv with Some _ => true | None => false end)
  | PList l => Ok (existsb (is_str k) l)
  | PStr s => Ok (Str.contains k s)
  | _ => Raise (TypeError ("argument of type '" ++ type_name v ++ "' is not iterable"))
  end.

(** The values [for item in v[:5]] visits. *)
Definition first_five (v : pyval) : result (list pyval) :=
  match v with
  | PList l => Ok (firstn 5 l)
  | PStr s => Ok (map PStr (firstn 5 (Str.chars s)))
  | PDict _ => Raise (TypeError "unhashable type: 'slice'")
  | _ => Raise (not_subscriptable v)
  end.

Definition no_attribute (v : pyval) (a : string) : exn :=
  AttributeError ("'" ++ type_name v ++ "' object has no attribute '" ++ a ++ "'").

(** [v.get(k, default)]; [v.get(k)] is [get v k PNone]. *)
Definition get (v : pyval) (k : string) (default : pyval) : result pyval :=
  match v with
  | PDict kv => Ok (match lookup k kv with Some x => x | None => default end)
  | _ => Raise (no_attribute v "get")
  end.

(** [v.lower()]. *)
Definition lower (v : pyval) : result string :=
  match v with
  | PStr s => Ok (Str.lower s)
  | _ => Raise (no_attribute v "lower")
  end.

(** The values that can be a dict key.  Looking a key up hashes it first,
    which raises on a list and on a dict. *)
Inductive scalar :=
| SNone
| SBool (b : bool)
| SInt (n : Z)
| SFloat (f : pyfloat)
| SStr (s : string).

Definition hashable (v : pyval) : result scalar :=
  match v with
  | PNone => Ok SNone
  | PBool b => Ok (SBool b)
  | PInt n => Ok (SInt n)
  | PFloat f => Ok (SFloat f)
  | PStr s => Ok (SStr s)
  | PList _ => Raise (TypeError "unhashable type: 'list'")
  | PDict _ => Raise (TypeError "unhashable type: 'dict'")
  end.

(** [str(x)], which is also how an f-string renders [x]. *)
Definition str (x : scalar) : string :=
  match x with
  | SNone => "None"
  | SBool b => if b then "True" else "False"
  | SInt n => Str.of_Z n
  | SFloat f => float_repr f
  | SStr s => s
  end.

(** [random.choice(l)], [rnd] being the number the generator draws. *)
Definition random_choice {A : Type} (rnd : nat) (l : list A) : result A :=
  match nth_error l (rnd mod List.length l) with
  | Some x => Ok x
  | None => Raise (IndexError "Cannot choose from an empty sequence")
  end.

(** [datetime.now()], of which only the hour (0..23) and the minute are
    printed. *)
Record datetime := { hour : nat; minute : nat }.

(** [t.strftime("%I:%M %p")]. *)
Definition strftime_I_M_p (t : datetime) : string :=
  let h := (hour t mod 12)%nat in
  Str.two_digits (if (h =? 0)%nat then 12 else h) ++ ":" ++
  Str.two_digits (minute t) ++ " " ++
  (if (hour t <? 12)%nat then "AM" else "PM").

End Py.

(** ** The HTTP client *)

(** What [requests.get(url, timeout=5)] returns: the status code and the
    outcome of [response.json()], which raises on a body that is not JSON.
    The call itself raises on a transport failure, so the client is a
    function from the URL to a [result response]. *)
Record response := { status_code : Z; json : result pyval }.

Definition http_client := string -> result response.

(** ** The explorer *)

(** The fields of [self] the handlers read: the API key, and the tokenizer
    and the model, each of whose operations may raise. *)
Record SpaceImageExplorer := {
  nasa_api_key : string;
  encoding : Type;
  tensor : Type;
  batch : Type;
  (** [self.tokenizer(prompt, return_tensors="pt", truncation=True, max_length=512)] *)
  tokenizer_call : string -> result encoding;
  (** [inputs["input_ids"]] *)
  encoding_getitem : encoding -> string -> result tensor;
  (** [self.tokenizer.pad_token_id] *)
  pad_token_id : result pyval;
  (** [self.model.generate(ids, max_length=300, min_length=50, do_sample=True,
      temperature=0.8, top_p=0.95, pad_token_id=pad, repetition_penalty=1.2)] *)
  model_generate : tensor -> pyval -> result batch;
  (** [outputs[0]] *)
  batch_getitem0 : batch -> result tensor;
  (** [self.tokenizer.decode(t, skip_special_tokens=True)] *)
  tokenizer_decode : tensor -> result pyval
}.

(** [self.space_knowledge['fun_facts']] *)
Definition fun_facts : list string :=
  [ "A day on Venus is longer than its year! 😮";
    "The footprints on the Moon will stay there for millions of years! 👣";
    "Saturn could float in a giant bathtub because it's less dense than water! 🛁" ].

(** *** get_daily_nasa_image *)

Record DailyImage := {
  title : pyval;
  url : pyval;
  explanation : pyval;
  date : pyval
}.

(** The dict the handler returns: [{'success': True, 'title': ..., 'url': ...,
    'explanation': ..., 'date': ...}] or [{'success': False, 'error': ...}]. *)
Inductive DailyImageResult :=
| DailyImageOk (image : DailyImage)
| DailyImageError (error : string).

Definition daily_success (r : DailyImageResult) : bool :=
  match r with
  | DailyImageOk _ => true
  | DailyImageError _ => false
  end.

Definition daily_error (r : DailyImageResult) : option string :=
  match r with
  | DailyImageOk _ => None
  | DailyImageError e => Some e
  end.

Definition apod_url (self : SpaceImageExplorer) : string :=
  "https://api.nasa.gov/planetary/apod?api_key=" ++ nasa_api_key self.

Definition get_daily_nasa_image_try (self : SpaceImageExplorer) (requests_get : http_client)
  : result DailyImageResult :=
  response <- requests_get (apod_url self) ;;
  if (status_code response =? 200)%Z then
    data <- json response ;;
    t <- Py.get data "title" PNone ;;
    u <- Py.get data "url" PNone ;;
    e <- Py.get data "explanation" PNone ;;
    d <- Py.get data "date" PNone ;;
    Ok (DailyImageOk {| title := t; url := u; explanation := e; date := d |})
  else
    Ok (DailyImageError ("Status code: " ++ Str.of_Z (status_code response))).

Definition get_daily_nasa_image (self : SpaceImageExplorer) (requests_get : http_client)
  : DailyImageResult :=
  match get_daily_nasa_image_try self requests_get with
  | Ok r => r
  | Raise e => DailyImageError (str_exn e)
  end.

(** *** search_nasa_images *)

Record SearchImageItem := {
  item_title : pyval;
  item_description : pyval;
  item_url : pyval;
  item_date_created : pyval
}.

(** [{'success': True, 'images': images}] or [{'success': False, 'error': ...}]. *)
Inductive SearchResult :=
| SearchOk (images : list SearchImageItem)
| SearchError (error : string).

Definition search_success (r : SearchResult) : bool :=
  match r with
  | SearchOk _ => true
  | SearchError _ => false
  end.

Definition search_images (r : SearchResult) : option (list SearchImageItem) :=
  match r with
  | SearchOk images => Some images
  | SearchError _ => None
  end.

Definition search_error (r : SearchResult) : option string :=
  match r with
  | SearchOk _ => None
  | SearchError e => Some e
  end.

Definition search_url (query : string) : string :=
  "https://images-api.nasa.gov/search?q=" ++ query ++ "&media_type=image".

(** ['links' in item and item['links']], as the [if] tests it. *)
Definition has_links (item : pyval) : result bool :=
  present <- Py.contains "links" item ;;
  if present then
    links <- Py.getitem item "links" ;;
    Ok (Py.truthy links)
  else Ok false.

(** [item['data'][0].get(k, default)] *)
Definition data0_get (item : pyval) (k : string) (default : pyval) : result pyval :=
  data <- Py.getitem item "data" ;;
  first <- Py.getitem0 data ;;
  Py.get first k default.

(** The dict literal [image_data], its values computed in the order
    written. *)
Definition image_data (item : pyval) : result SearchImageItem :=
  t <- data0_get item "title" (PStr "No title") ;;
  d <- data0_get item "description" (PStr "No description") ;;
  links <- Py.getitem item "links" ;;
  link <- Py.getitem0 links ;;
  href <- Py.getitem link "href" ;;
  c <- data0_get item "date_created" (PStr "Unknown date") ;;
  Ok {| item_title := t; item_description := d; item_url := href;
        item_date_created := c |}.

(** The [for] loop, [images] being the list built so far. *)
Fixpoint collect_images (items : list pyval) (images : list SearchImageItem)
  : result (list SearchImageItem) :=
  match items with
  | [] => Ok images
  | item :: rest =>
      linked <- has_links item ;;
      if linked then
        img <- image_data item ;;
        collect_images rest (images ++ [img])
      else collect_images rest images
  end.

Definition search_nasa_images_try (requests_get : http_client) (query : string)
  : result SearchResult :=
  response <- requests_get (search_url query) ;;
  if (status_code response =? 200)%Z then
    data <- json response ;;
    collection <- Py.getitem data "collection" ;;
    present <- Py.contains "items" collection ;;
    images <-
      (if present then
         collection <- Py.getitem data "collection" ;;
         items <- Py.getitem collection "items" ;;
         five <- Py.first_five items ;;
         collect_images five []
       else Ok []) ;;
    Ok (SearchOk images)
  else
    Ok (SearchError ("Status code: " ++ Str.of_Z (status_code response))).

Definition search_nasa_images (requests_get : http_client) (query : string)
  : SearchResult :=
  match search_nasa_images_try requests_get query with
  | Ok r => r
  | Raise e => SearchError (str_exn e)
  end.

(** *** chat_with_space_expert *)

Definition marker : string := "explain:".

(** [response.split("explain:")[-1].strip() if "explain:" in response.lower()
    else response], on a [str]. *)
Definition clean_text (response : string) : string :=
  if Str.contains marker (Str.lower response)
  then Str.strip (last (Str.split marker response) "")
  else response.

(** The same on whatever [decode] returned: [.lower()] exists on a [str]
    only. *)
Definition clean_response (response : pyval) : result string :=
  match response with
  | PStr s => Ok (clean_text s)
  | _ => Raise (Py.no_attribute response "lower")
  end.

Definition format_response (response fun_fact : string) : string :=
  "🚀 " ++ response ++ Str.newline ++ Str.newline ++ "✨ Fun Fact: " ++ fun_fact.

Definition prompt_of (message : string) : string :=
  "As a space expert, explain: " ++ message.

Definition chat_try (self : SpaceImageExplorer) (rnd : nat) (message : string)
  : result string :=
  let prompt := prompt_of message in
  inputs <- tokenizer_call self prompt ;;
  ids <- encoding_getitem self inputs "input_ids" ;;
  pad <- pad_token_id self ;;
  outputs <- model_generate self ids pad ;;
  first <- batch_getitem0 self outputs ;;
  response <- tokenizer_decode self first ;;
  response <- clean_response response ;;
  fun_fact <- Py.random_choice rnd fun_facts ;;
  Ok (format_response response fun_fact).

Definition apology (e : exn) : string :=
  "Houston, we have a problem! 🚀 Please try asking that question differently. Error: "
  ++ str_exn e.

Definition chat_with_space_expert (self : SpaceImageExplorer) (rnd : nat)
  (message : string) : result string :=
  match chat_try self rnd message with
  | Ok formatted_response => Ok formatted_response
  | Raise e => Ok (apology e)
  end.

(** *** get_space_weather *)

Record WeatherCondition := {
  label : string;
  value : pyval;
  emoji : string
}.

Record WeatherResult := {
  status : string;
  conditions : list WeatherCondition;
  description : pyval;
  time : string
}.

Definition weather_types : list (string * string) :=
  [ ("Report", "🛸"); ("Watch", "⚠️"); ("Warning", "🚨"); ("Alert", "⚡") ].

Fixpoint assoc (k : string) (table : list (string * string)) : option string :=
  match table with
  | [] => None
  | (k', v) :: table' => if k =? k' then Some v else assoc k table'
  end.

(** [weather_types.get(key, default)]: only a [str] can be equal to a key of
    the table. *)
Definition weather_types_get (key : Py.scalar) (default : string) : string :=
  match key with
  | Py.SStr s =>
      match assoc s weather_types with
      | Some e => e
      | None => default
      end
  | _ => default
  end.

(** [data.get('messageBody', '').lower()] *)
Definition message_body_lower (data : pyval) : result string :=
  body <- Py.get data "messageBody" (PStr "") ;;
  Py.lower body.

Definition _format_real_weather (now : Py.datetime) (data : pyval)
  : result WeatherResult :=
  message_type <- Py.get data "messageType" (PStr "Report") ;;
  key <- Py.hashable message_type ;;
  let emoji := weather_types_get key "🛸" in
  let status := emoji ++ " Space Weather " ++ Py.str key in
  low1 <- message_body_lower data ;;
  let solar := if Str.contains "flare" low1 then "Active" else "Calm" in
  low2 <- message_body_lower data ;;
  let aurora := if Str.contains "aurora" low2 then "Visible" else "Not Visible" in
  description <-
    Py.get data "messageBody" (PStr "Space weather information currently unavailable") ;;
  Ok {| status := status;
        conditions :=
          [ {| label := "Current Activity"; value := message_type; emoji := emoji |};
            {| label := "Solar Activity"; value := PStr solar; emoji := "🌞" |};
            {| label := "Aurora Forecast"; value := PStr aurora; emoji := "🌌" |} ];
        description := description;
        time := Py.strftime_I_M_p now |}.

(** A scenario of the fallback table: a [WeatherResult] still without its
    ["time"] key. *)
Record Scenario := {
  sc_status : string;
  sc_conditions : list WeatherCondition;
  sc_description : string
}.

Definition scenarios : list Scenario :=
  [ {| sc_status := "🌟 Perfect Space Weather";
       sc_conditions :=
         [ {| label := "Current Activity"; value := PStr "Calm"; emoji := "✨" |};
           {| label := "Solar Activity"; value := PStr "Low"; emoji := "🌞" |};
           {| label := "Aurora Forecast"; value := PStr "Not Visible"; emoji := "🌙" |} ];
       sc_description :=
         "Perfect conditions for stargazing tonight! The Milky Way should be clearly visible." |};
    {| sc_status := "🌠 Aurora Alert";
       sc_conditions :=
         [ {| label := "Current Activity"; value := PStr "Active"; emoji := "⚡" |};
           {| label := "Solar Activity"; value := PStr "High"; emoji := "🌞" |};
           {| label := "Aurora Forecast"; value := PStr "Visible"; emoji := "🎆" |} ];
       sc_description :=
         "A solar storm is creating perfect conditions for aurora viewing! Look toward the northern horizon tonight." |};
    {| sc_status := "☄️ Meteor Shower";
       sc_conditions :=
         [ {| label := "Current Activity"; value := PStr "Special Event"; emoji := "☄️" |};
           {| label := "Solar Activity"; value := PStr "Normal"; emoji := "🌞" |};
           {| label := "Aurora Forecast"; value := PStr "Not Visible"; emoji := "🌙" |} ];
       sc_description :=
         "A meteor shower is expected tonight! Best viewing hours are between 11 PM and 3 AM." |} ].

(** [weather["time"] = ...] on the chosen scenario. *)
Definition stamp (weather : Scenario) (now : Py.datetime) : WeatherResult :=
  {| status := sc_status weather;
     conditions := sc_conditions weather;
     description := PStr (sc_description weather);
     time := Py.strftime_I_M_p now |}.

Definition _generate_simulated_weather (rnd : nat) (now : Py.datetime)
  : result WeatherResult :=
  weather <- Py.random_choice rnd scenarios ;;
  Ok (stamp weather now).

Definition weather_url (self : SpaceImageExplorer) : string :=
  "https://api.nasa.gov/DONKI/notifications?api_key=" ++ nasa_api_key self.

(** The body of the [try]: [Some w] when it reaches its [return], [None]
    when it falls through to the statement after the [try]. *)
Definition get_space_weather_try (self : SpaceImageExplorer) (requests_get : http_client)
  (now : Py.datetime) : result (option WeatherResult) :=
  response <- requests_get (weather_url self) ;;
  if (status_code response =? 200)%Z then
    data <- json response ;;
    if Py.truthy data then
      first <- Py.getitem0 data ;;
      w <- _format_real_weather now first ;;
      Ok (Some w)
    else Ok None
  else Ok None.

Definition get_space_weather (self : SpaceImageExplorer) (requests_get : http_client)
  (rnd : nat) (now : Py.datetime) : result WeatherResult :=
  match get_space_weather_try self requests_get now with
  | Ok (Some w) => Ok w
  | Ok None | Raise _ => _generate_simulated_weather rnd now
  end.

(** ** Vocabulary of the specification *)

Module Spec.

(** [needle] occurs in [s] up to the case of ASCII letters. *)
Definition contains_ci (needle s : string) : Prop :=
  exists pre mid post, s = pre ++ mid ++ post /\ Str.lower mid = needle.

(** The item carries a non-empty [links] array. *)
Definition has_links_array (item : pyval) : bool :=
  match item with
  | PDict kv =>
      match Py.lookup "links" kv with
      | Some (PList (_ :: _)) => true
      | _ => false
      end
  | _ => false
  end.

(** The [href] of the first link of an item. *)
Definition first_href (item : pyval) : option pyval :=
  match item with
  | PDict kv =>
      match Py.lookup "links" kv with
      | Some (PList (PDict link :: _)) => Py.lookup "href" link
      | _ => None
      end
  | _ => None
  end.

(** The items of a search response: [data.collection.items], an array. *)
Definition response_items (data : pyval) : option (list pyval) :=
  match data with
  | PDict kv =>
      match Py.lookup "collection" kv with
      | Some (PDict collection) =>
          match Py.lookup "items" collection with
          | Some (PList items) => Some items
          | _ => None
          end
      | _ => None
      end
  | _ => None
  end.

(** An item that lacks the [data] key, has an empty [data] list, or whose
    first link lacks an [href] field. *)
Definition malformed (item : pyval) : bool :=
  match item with
  | PDict kv =>
      match Py.lookup "data" kv with
      | None => true
      | Some (PList []) => true
      | _ =>
          match Py.lookup "links" kv with
          | Some (PList (PDict link :: _)) =>
              match Py.lookup "href" link with
              | None => true
              | Some _ => false
              end
          | _ => false
          end
      end
  | _ => false
  end.

Definition condition_labels : list string :=
  ["Current Activity"; "Solar Activity"; "Aurora Forecast"].

Definition fallback_statuses : list string :=
  ["🌟 Perfect Space Weather"; "🌠 Aurora Alert"; "☄️ Meteor Shower"].

Definition message_types : list string := ["Report"; "Watch"; "Warning"; "Alert"].

(** The emoji of the lookup table, with the one of [Report] for any other
    value. *)
Definition emoji_of (message_type : pyval) : string :=
  match message_type with
  | PStr t =>
      if t =? "Report" then "🛸"
      else if t =? "Watch" then "⚠️"
      else if t =? "Warning" then "🚨"
      else if t =? "Alert" then "⚡"
      else "🛸"
  | _ => "🛸"
  end.

(** The values of the first two conditions of a result. *)
Definition current_activity (w : WeatherResult) : option pyval :=
  option_map value (nth_error (conditions w) 0).

Definition solar_activity (w : WeatherResult) : option pyval :=
  option_map value (nth_error (conditions w) 1).

(** The text after the last occurrence of a non-empty [needle] in [s]. *)
Fixpoint after_last (needle s : string) : option string :=
  match s with
  | "" => None
  | String _ s' =>
      match after_last needle s' with
      | Some rest => Some rest
      | None =>
          if prefix needle s
          then Some (Str.drop (String.length needle) s)
          else None
      end
  end.

(** The same, occurrences being found in the lowercased text as the test
    of the marker finds them. *)
Fixpoint after_last_ci (needle s : string) : option string :=
  match s with
  | "" => None
  | String _ s' =>
      match after_last_ci needle s' with
      | Some rest => Some rest
      | None =>
          if prefix needle (Str.lower s)
          then Some (Str.drop (String.length needle) s)
          else None
      end
  end.

(** The explanation segment as the specification words it. *)
Definition explanation_segment (raw : string) : string :=
  match after_last_ci marker raw with
  | Some rest => Str.strip rest
  | None => raw
  end.

(** An item the loop can process: a dict with no link, or with a first link
    that has an [href] and a [data] list that begins with a dict. *)
Definition complete (item : pyval) : bool :=
  match item with
  | PDict kv =>
      match Py.lookup "links" kv with
      | Some (PList (PDict link :: _)) =>
          match Py.lookup "data" kv, Py.lookup "href" link with
          | Some (PList (PDict _ :: _)), Some _ => true
          | _, _ => false
          end
      | Some (PList []) | None => true
      | Some _ => false
      end
  | _ => false
  end.

(** [img] is the image record of [item], its url the [href] of the item's
    first link. *)
Definition built_from (item : pyval) (img : SearchImageItem) : Prop :=
  image_data item = Ok img /\ first_href item = Some (item_url img).

(** The generation service raises [e] on [prompt]: in the tokenizer, in
    [model.generate] or in [decode]. *)
Inductive generation_raises (self : SpaceImageExplorer) (prompt : string) (e : exn)
  : Prop :=
| tokenizer_raises :
    tokenizer_call self prompt = Raise e ->
    generation_raises self prompt e
| generate_raises inputs ids pad :
    tokenizer_call self prompt = Ok inputs ->
    encoding_getitem self inputs "input_ids" = Ok ids ->
    pad_token_id self = Ok pad ->
    model_generate self ids pad = Raise e ->
    generation_raises self prompt e
| decode_raises inputs ids pad outputs first :
    tokenizer_call self prompt = Ok inputs ->
    encoding_getitem self inputs "input_ids" = Ok ids ->
    pad_token_id self = Ok pad ->
    model_generate self ids pad = Ok outputs ->
    batch_getitem0 self outputs = Ok first ->
    tokenizer_decode self first = Raise e ->
    generation_raises self prompt e.

End Spec.

(** ** Stubs *)

(** A client that answers every request with the same outcome. *)
Definition always (o : result response) : http_client := fun _ => o.

Definition ok_json (data : pyval) : result response :=
  Ok {| status_code := 200; json := Ok data |}.

(** An explorer whose tokenizer returns [decoded] for whatever the model
    generated, unless the model raises. *)
Definition stub_explorer (generated : result unit) (decoded : result pyval)
  : SpaceImageExplorer :=
  {| nasa_api_key := "DEMO_KEY";
     encoding := unit; tensor := unit; batch := unit;
     tokenizer_call := fun _ => Ok tt;
     encoding_getitem := fun _ _ => Ok tt;
     pad_token_id := Ok PNone;
     model_generate := fun _ _ => generated;
     batch_getitem0 := fun _ => Ok tt;
     tokenizer_decode := fun _ => decoded |}.

Definition search_body (items : list pyval) : pyval :=
  PDict [("collection", PDict [("items", PList items)])].

Definition linked_item (name href : string) : pyval :=
  PDict [ ("data", PList [PDict [("title", PStr name)]]);
          ("links", PList [PDict [("href", PStr href)]]) ].

Definition unlinked_item (name : string) : pyval :=
  PDict [ ("data", PList [PDict [("title", PStr name)]]) ].

(** An item with a link and no [data] key. *)
Definition item_without_data (href : string) : pyval :=
  PDict [ ("links", PList [PDict [("href", PStr href)]]) ].

(** Six items of which only the first has no links. *)
Definition six_items : list pyval :=
  [ unlinked_item "a";
    linked_item "b" "https://images/b.jpg";
    linked_item "c" "https://images/c.jpg";
    linked_item "d" "https://images/d.jpg";
    linked_item "e" "https://images/e.jpg";
    linked_item "f" "https://images/f.jpg" ].

(** ** Start-up and the interface callbacks *)

(** [os.getenv(k, default)], the environment being the list of its
    variables. *)
Fixpoint getenv (env : list (string * string)) (k default : string) : string :=
  match env with
  | [] => default
  | (k', v) :: env' => if k =? k' then v else getenv env' k default
  end.

(** What the two [from_pretrained] calls for ["google/gemma-2b"] give when
    both return: the operations of the tokenizer and of the model. *)
Record Pretrained := {
  p_encoding : Type;
  p_tensor : Type;
  p_batch : Type;
  p_tokenizer_call : string -> result p_encoding;
  p_encoding_getitem : p_encoding -> string -> result p_tensor;
  p_pad_token_id : result pyval;
  p_model_generate : p_tensor -> pyval -> result p_batch;
  p_batch_getitem0 : p_batch -> result p_tensor;
  p_tokenizer_decode : p_tensor -> result pyval
}.

(** [SpaceImageExplorer.__init__]: the user name and the API key are read
    from the environment, then the model is loaded; the [except] clause
    prints and raises again.  The result is [self.current_user] with the
    fields the handlers read. *)
Definition init (env : list (string * string)) (from_pretrained : result Pretrained)
  : result (string * SpaceImageExplorer) :=
  let current_user := getenv env "USER" "Guest" in
  let key := getenv env "NASA_API_KEY" "DEMO_KEY" in
  match from_pretrained with
  | Ok m =>
      Ok (current_user,
          {| nasa_api_key := key;
             tokenizer_call := p_tokenizer_call m;
             encoding_getitem := p_encoding_getitem m;
             pad_token_id := p_pad_token_id m;
             model_generate := p_model_generate m;
             batch_getitem0 := p_batch_getitem0 m;
             tokenizer_decode := p_tokenizer_decode m |})
  | Raise e => Raise e
  end.

(** [self.startup_time.strftime('%Y-%m-%d %H:%M:%S')] of the fixed
    [datetime(2025, 2, 9, 9, 47, 55)]. *)
Definition startup_time : string := "2025-02-09 09:47:55".

(** The Markdown text at the top of the page. *)
Definition header (current_user : string) : string :=
  Str.newline ++
  "        # 🚀 Space Explorer" ++ Str.newline ++
  "        ### Your Window to the Cosmos" ++ Str.newline ++
  "        Welcome, " ++ current_user ++
  "! Explore beautiful space images, chat about the universe, and learn amazing facts!"
  ++ Str.newline ++ Str.newline ++
  "        Last updated: " ++ startup_time ++ " UTC" ++ Str.newline ++
  "        ".

(** What [create_interface] returns: the one-function interface built when
    the explorer cannot be made, or the page, whose callbacks are those of
    module [Ui] below on the explorer made. *)
Inductive Interface :=
| ErrorInterface (fn : string -> string)
| Blocks (markdown : string) (explorer : SpaceImageExplorer).

Definition create_interface (env : list (string * string))
  (from_pretrained : result Pretrained) : Interface :=
  match init env from_pretrained with
  | Ok (current_user, explorer) => Blocks (header current_user) explorer
  | Raise e =>
      ErrorInterface
        (fun _ => "Oops! Something went wrong. " ++ str_exn e ++
                  " Please check if all settings are correct.")
  end.

Module Ui.

(** How an f-string renders a value: [str(v)].  The text of a list or of a
    dict, which is made of the [repr] of its elements, is given by
    [container_str]. *)
Definition format_value (container_str : pyval -> string) (v : pyval) : string :=
  match v with
  | PNone => "None"
  | PBool b => if b then "True" else "False"
  | PInt n => Str.of_Z n
  | PFloat f => float_repr f
  | PStr s => s
  | PList _ | PDict _ => container_str v
  end.

Definition fetch_failed : pyval * string * string :=
  (PNone, "Couldn't fetch today's image", "Please try again in a moment").

(** [fetch_daily]: the image, the title and the explanation shown. *)
Definition fetch_daily (container_str : pyval -> string) (explorer : SpaceImageExplorer)
  (requests_get : http_client) : pyval * string * string :=
  match get_daily_nasa_image explorer requests_get with
  | DailyImageOk result =>
      (url result,
       "# " ++ format_value container_str (title result),
       "### What are we looking at?" ++ Str.newline ++
       format_value container_str (explanation result))
  | DailyImageError _ => fetch_failed
  end.

Definition found_info : string :=
  "### Discovered these amazing images!" ++ Str.newline ++
  "Click on any image to view it larger.".

Definition nothing_found : list pyval * string :=
  ([], "No images found. Try a different search!").

(** [search_images]: the gallery and the text under it.
    [results['success'] and results.get('images')] holds for a successful
    search with a non-empty list. *)
Definition search_images (requests_get : http_client) (query : string)
  : list pyval * string :=
  match search_nasa_images requests_get query with
  | SearchOk (img :: more) => (map item_url (img :: more), found_info)
  | SearchOk [] => nothing_found
  | SearchError _ => nothing_found
  end.

(** [respond]: the new content of the text box and the history, to which
    the turn has been appended. *)
Definition respond (explorer : SpaceImageExplorer) (rnd : nat) (message : string)
  (history : list (string * string)) : result (string * list (string * string)) :=
  bot_message <- chat_with_space_expert explorer rnd message ;;
  Ok ("", (history ++ [(message, bot_message)])%list).

(** [update_weather]: the status, the description, the time line and the
    rows of the table. *)
Definition update_weather (container_str : pyval -> string)
  (explorer : SpaceImageExplorer) (requests_get : http_client) (rnd : nat)
  (now : Py.datetime) : result (string * string * string * list (string * pyval)) :=
  weather <- get_space_weather explorer requests_get rnd now ;;
  let condition_data :=
    map (fun cond => (emoji cond ++ " " ++ label cond, value cond))
        (conditions weather) in
  Ok ("# " ++ status weather,
      format_value container_str (description weather),
      "Last updated: " ++ time weather,
      condition_data).

End Ui.

(** A loaded model whose tokenizer decodes everything to one sentence. *)
Definition stub_pretrained : Pretrained :=
  {| p_encoding := unit; p_tensor := unit; p_batch := unit;
     p_tokenizer_call := fun _ => Ok tt;
     p_encoding_getitem := fun _ _ => Ok tt;
     p_pad_token_id := Ok PNone;
     p_model_generate := fun _ _ => Ok tt;
     p_batch_getitem0 := fun _ => Ok tt;
     p_tokenizer_decode := fun _ => Ok (PStr "Mars is red.") |}.

(** ** Further vocabulary *)

Module Shape.

(** The first element of the [data] list of an item, a dict. *)
Definition first_data (item : pyval) : option (list (string * pyval)) :=
  match item with
  | PDict kv =>
      match Py.lookup "data" kv with
      | Some (PList (PDict entry :: _)) => Some entry
      | _ => None
      end
  | _ => None
  end.

(** The value of a key, or the default text when the key is absent. *)
Definition value_or (entry : list (string * pyval)) (k default : string) : pyval :=
  match Py.lookup k entry with
  | Some v => v
  | None => PStr default
  end.

(** A notification the real-weather path can format: an object whose
    message type, if any, is not a list or an object and whose message body,
    if any, is a string. *)
Definition formattable (entry : pyval) : bool :=
  match entry with
  | PDict kv =>
      match Py.lookup "messageType" kv with
      | Some (PList _) | Some (PDict _) => false
      | _ => true
      end &&
      match Py.lookup "messageBody" kv with
      | Some (PStr _) | None => true
      | Some _ => false
      end
  | _ => false
  end.

(** The value of the third condition of a result. *)
Definition aurora_forecast (w : WeatherResult) : option pyval :=
  option_map value (nth_error (conditions w) 2).

(** The fallback result for the number drawn. *)
Definition fallback (rnd : nat) (now : Py.datetime) (w : WeatherResult) : Prop :=
  exists sc, nth_error scenarios (rnd mod 3) = Some sc /\ w = stamp sc now.

End Shape.

(** * Properties *)

(** ** The string operations on examples *)

Example lower_example : Str.lower "Solar FLARE!" = "solar flare!".
Proof. reflexivity. Qed.

Example split_example :
  Str.split "explain:" "a explain: b explain: c" = ["a "; " b "; " c"].
Proof. reflexivity. Qed.

Example split_trailing_example : Str.split "ab" "xab" = ["x"; ""].
Proof. reflexivity. Qed.

Example strip_example :
  Str.strip (" " ++ Str.newline ++ " hello  world " ++ Str.bytes [226; 128; 131])
  = "hello  world".
Proof. reflexivity. Qed.

Example of_Z_examples :
  Str.of_Z 404 = "404" /\ Str.of_Z 0 = "0" /\ Str.of_Z (-7) = "-7".
Proof. repeat split. Qed.

Example strftime_examples :
  Py.strftime_I_M_p {| Py.hour := 0; Py.minute := 5 |} = "12:05 AM" /\
  Py.strftime_I_M_p {| Py.hour := 15; Py.minute := 42 |} = "03:42 PM".
Proof. split; reflexivity. Qed.

(** ** Strings: prefixes, occurrences, lowering *)

Section StringFacts.

Lemma prefix_app (n post : string) : prefix n (n ++ post) = true.
Proof.
  induction n as [|c n IH]; simpl.
  - destruct post; reflexivity.
  - destruct (ascii_dec c c) as [_|N]; [exact IH | now elim N].
Qed.

Lemma prefix_inv (n h : string) :
  prefix n h = true -> exists post, h = n ++ post.
Proof.
  revert h. induction n as [|c n IH]; intros h H.
  - exists h. reflexivity.
  - destruct h as [|d h]; simpl in H; [discriminate|].
    destruct (ascii_dec c d) as [->|]; [|discriminate].
    destruct (IH h H) as [post ->]. exists post. reflexivity.
Qed.

Lemma app_assoc_str (a b c : string) : (a ++ b) ++ c = a ++ (b ++ c).
Proof. induction a as [|x a IH]; simpl; [reflexivity | now rewrite IH]. Qed.

Lemma app_empty_r (a : string) : a ++ "" = a.
Proof. induction a as [|x a IH]; simpl; [reflexivity | now rewrite IH]. Qed.

Lemma contains_prefix (n h : string) :
  prefix n h = true -> Str.contains n h = true.
Proof. destruct h; simpl; intros ->; reflexivity. Qed.

Lemma contains_intro (n pre post : string) :
  Str.contains n (pre ++ n ++ post) = true.
Proof.
  induction pre as [|c pre IH]; simpl.
  - apply contains_prefix, prefix_app.
  - rewrite IH. apply orb_true_r.
Qed.

Lemma contains_inv (n h : string) :
  Str.contains n h = true -> exists pre post, h = pre ++ n ++ post.
Proof.
  induction h as [|c h IH]; cbn [Str.contains]; intros H.
  - rewrite orb_false_r in H. destruct (prefix_inv _ _ H) as [post E].
    exists "", post. exact E.
  - apply orb_true_iff in H. destruct H as [H|H].
    + destruct (prefix_inv _ _ H) as [post E]. exists "", post. exact E.
    + destruct (IH H) as (pre & post & ->). exists (String c pre), post.
      reflexivity.
Qed.

Lemma contains_iff (n h : string) :
  Str.contains n h = true <-> exists pre post, h = pre ++ n ++ post.
Proof.
  split; [apply contains_inv|]. intros (pre & post & ->). apply contains_intro.
Qed.

Lemma lower_app (a b : string) : Str.lower (a ++ b) = Str.lower a ++ Str.lower b.
Proof. induction a as [|c a IH]; simpl; [reflexivity | now rewrite IH]. Qed.

Lemma lower_split (s a b : string) :
  Str.lower s = a ++ b ->
  exists s1 s2, s = s1 ++ s2 /\ Str.lower s1 = a /\ Str.lower s2 = b.
Proof.
  revert s. induction a as [|c a IH]; intros s H.
  - exists "", s. auto.
  - destruct s as [|d s]; simpl in H; [discriminate|].
    injection H as Hc H. destruct (IH s H) as (s1 & s2 & -> & H1 & H2).
    exists (String d s1), s2. simpl. rewrite Hc, H1. auto.
Qed.

(** The test the code makes, [needle in s.lower()], finds exactly the
    occurrences of [needle] up to case. *)
Lemma contains_lower_iff (needle s : string) :
  Str.contains needle (Str.lower s) = true <-> Spec.contains_ci needle s.
Proof.
  rewrite contains_iff. split.
  - intros (pre & post & H).
    destruct (lower_split _ _ _ H) as (s1 & s' & -> & _ & H').
    destruct (lower_split _ _ _ H') as (s2 & s3 & -> & H2 & _).
    exists s1, s2, s3. auto.
  - intros (pre & mid & post & -> & H).
    exists (Str.lower pre), (Str.lower post).
    now rewrite !lower_app, H.
Qed.

Lemma chars_nil (s : string) : Str.chars s = [] -> s = "".
Proof.
  destruct s as [|c s]; [reflexivity|]. simpl.
  destruct (Str.chars s) as [|h t]; [discriminate|].
  destruct (Str.starts_with_continuation h); discriminate.
Qed.

(** Cutting a string into code points loses nothing, so [strip] only takes
    whitespace off the two ends. *)
Lemma concat_chars (s : string) : String.concat "" (Str.chars s) = s.
Proof.
  induction s as [|c s IH]; [reflexivity|]. simpl.
  destruct (Str.chars s) as [|h t] eqn:E.
  - now rewrite (chars_nil s E).
  - destruct (Str.starts_with_continuation h).
    + rewrite <- IH. destruct t; reflexivity.
    + rewrite <- IH. reflexivity.
Qed.

End StringFacts.

(** ** The error monad *)

Lemma bind_ok {A B : Type} (c : result A) (k : A -> result B) (b : B) :
  bind c k = Ok b -> exists a, c = Ok a /\ k a = Ok b.
Proof. destruct c as [a|e]; simpl; [eauto | discriminate]. Qed.

Lemma bind_raise {A B : Type} (c : result A) (k : A -> result B) (e : exn) :
  c = Raise e -> bind c k = Raise e.
Proof. intros ->. reflexivity. Qed.

(** Invert a run of binds that returned. *)
Ltac inv_bind H :=
  repeat match type of H with
         | bind _ _ = Ok _ =>
             let a := fresh "a" in
             let E := fresh "E" in
             apply bind_ok in H; destruct H as (a & E & H); cbv beta zeta in H
         end.

Lemma random_choice_In {A : Type} (rnd : nat) (l : list A) :
  l <> [] -> exists x, Py.random_choice rnd l = Ok x /\ In x l.
Proof.
  intros Hl. unfold Py.random_choice.
  destruct (nth_error l (rnd mod List.length l)) as [x|] eqn:E.
  - exists x. split; [reflexivity | eapply nth_error_In; eauto].
  - apply nth_error_None in E.
    assert (rnd mod List.length l < List.length l).
    { apply Nat.mod_upper_bound. destruct l; [congruence | discriminate]. }
    lia.
Qed.

(** ** Space weather *)

Section Weather.

Variable self : SpaceImageExplorer.
Variable requests_get : http_client.
Variable rnd : nat.
Variable now : Py.datetime.

Lemma scenarios_not_empty : scenarios <> [].
Proof. discriminate. Qed.

Lemma scenario_cases (sc : Scenario) :
  In sc scenarios ->
  In (sc_status sc) Spec.fallback_statuses /\
  map label (sc_conditions sc) = Spec.condition_labels.
Proof.
  intros H. repeat (destruct H as [<-|H]; [simpl; auto 6|]). destruct H.
Qed.

(** The fallback generator always returns, with one of the scenarios. *)
Lemma simulated_weather_ok :
  exists sc, In sc scenarios /\
             _generate_simulated_weather rnd now = Ok (stamp sc now).
Proof.
  destruct (random_choice_In rnd scenarios scenarios_not_empty) as (sc & E & Hin).
  exists sc. split; [exact Hin|].
  unfold _generate_simulated_weather. rewrite E. reflexivity.
Qed.

Lemma real_weather_labels (data : pyval) (w : WeatherResult) :
  _format_real_weather now data = Ok w ->
  map label (conditions w) = Spec.condition_labels.
Proof.
  unfold _format_real_weather. intros H. inv_bind H.
  injection H as <-. reflexivity.
Qed.

(** What the handler returns is the formatted first entry or a stamped
    scenario. *)
Lemma get_space_weather_cases :
  exists w, get_space_weather self requests_get rnd now = Ok w /\
    ((exists data, _format_real_weather now data = Ok w) \/
     (exists sc, In sc scenarios /\ w = stamp sc now)).
Proof.
  destruct simulated_weather_ok as (sc & Hin & Hsim).
  unfold get_space_weather.
  destruct (get_space_weather_try self requests_get now) as [[w|]|e] eqn:T.
  - exists w. split; [reflexivity|]. left.
    unfold get_space_weather_try in T. inv_bind T.
    destruct (status_code a =? 200)%Z; [|discriminate].
    inv_bind T. destruct (Py.truthy a0); [|discriminate].
    inv_bind T. injection T as <-. eauto.
  - exists (stamp sc now). eauto.
  - exists (stamp sc now). eauto.
Qed.

(** The real-data path: a 200 answer whose list begins with an entry that
    formats is answered with that entry formatted. *)
Lemma get_space_weather_real_path
  (r : response) (entry : pyval) (rest : list pyval) (w : WeatherResult) :
  requests_get (weather_url self) = Ok r ->
  status_code r = 200%Z ->
  json r = Ok (PList (entry :: rest)) ->
  _format_real_weather now entry = Ok w ->
  get_space_weather self requests_get rnd now = Ok w.
Proof.
  intros Ho Hs Hj Hf. unfold get_space_weather, get_space_weather_try.
  rewrite Ho. simpl. rewrite Hs, Hj. simpl. rewrite Hf. reflexivity.
Qed.

(** An entry formats when it is an object whose message type, if any, is a
    scalar and whose message body, if any, is a string. *)
Lemma real_weather_formats (kv : list (string * pyval)) (key : Py.scalar) (body : string) :
  Py.hashable match Py.lookup "messageType" kv with
              | Some v => v
              | None => PStr "Report"
              end = Ok key ->
  PStr body = match Py.lookup "messageBody" kv with
              | Some v => v
              | None => PStr ""
              end ->
  exists w, _format_real_weather now (PDict kv) = Ok w.
Proof.
  intros Hk Hb. unfold _format_real_weather, message_body_lower. simpl.
  rewrite Hk. simpl. rewrite <- Hb. simpl. eauto.
Qed.

(** C1. When the notifications request raises (a timeout, a connection
    error, any exception), [get_space_weather] does not raise: it returns a
    result whose status, conditions and description are those of one entry
    of the scenario table, so its status is one of the three fallback
    statuses. *)
Theorem get_space_weather_fallback_on_request_failure (e : exn) :
  requests_get (weather_url self) = Raise e ->
  exists w sc,
    get_space_weather self requests_get rnd now = Ok w /\
    In sc scenarios /\
    status w = sc_status sc /\
    conditions w = sc_conditions sc /\
    description w = PStr (sc_description sc) /\
    In (status w) Spec.fallback_statuses.
Proof.
  intros H. destruct simulated_weather_ok as (sc & Hin & Hsim).
  exists (stamp sc now), sc.
  unfold get_space_weather, get_space_weather_try. rewrite H. simpl.
  repeat (split; [first [exact Hsim | exact Hin | reflexivity]|]).
  apply (scenario_cases sc Hin).
Qed.

(** C4. Whatever the notifications request does, the result of
    [get_space_weather] has exactly three conditions, labelled Current
    Activity, Solar Activity and Aurora Forecast in this order, on the
    real-data path as on the fallback path. *)
Theorem get_space_weather_three_conditions :
  exists w,
    get_space_weather self requests_get rnd now = Ok w /\
    List.length (conditions w) = 3 /\
    map label (conditions w) =
      ["Current Activity"; "Solar Activity"; "Aurora Forecast"].
Proof.
  destruct get_space_weather_cases as (w & E & [(data & H)|(sc & Hin & ->)]);
    exists w || exists (stamp sc now); (split; [exact E|]).
  - pose proof (real_weather_labels _ _ H) as L.
    split; [|exact L]. rewrite <- (length_map label), L. reflexivity.
  - destruct (scenario_cases sc Hin) as [_ L]. simpl.
    split; [|exact L]. rewrite <- (length_map label), L. reflexivity.
Qed.

Lemma weather_types_get_emoji (message_type : pyval) (key : Py.scalar) :
  Py.hashable message_type = Ok key ->
  weather_types_get key "🛸" = Spec.emoji_of message_type.
Proof.
  destruct message_type; simpl; intros H; inversion H; subst; try reflexivity.
  unfold weather_types_get, weather_types, assoc, Spec.emoji_of.
  repeat match goal with |- context [if ?b then _ else _] => destruct b end;
    reflexivity.
Qed.

Lemma message_body_lower_inv (data : pyval) (low : string) :
  message_body_lower data = Ok low ->
  exists kv body,
    data = PDict kv /\
    PStr body = match Py.lookup "messageBody" kv with
                | Some v => v
                | None => PStr ""
                end /\
    low = Str.lower body.
Proof.
  unfold message_body_lower. intros H. inv_bind H.
  destruct data; try discriminate. simpl in E. injection E as <-.
  exists kv. destruct (Py.lookup "messageBody" kv) as [v|]; simpl in H.
  - destruct v; try discriminate. injection H as <-. eauto.
  - injection H as <-. exists "". auto.
Qed.

(** C9, as the code has it.  For every entry the real-weather path formats,
    the message type shown (in the status and as the value of Current
    Activity) is the entry's own [messageType] value, [Report] only when the
    entry has no such field; the emoji is the one the table gives for
    Report, Watch, Warning and Alert, and the emoji of Report for any other
    value; Solar Activity is [Active] exactly when the message body (empty
    when absent) contains [flare] up to case, and [Calm] otherwise. *)
Theorem real_weather_message_type_and_solar_activity (data : pyval) (w : WeatherResult) :
  _format_real_weather now data = Ok w ->
  exists kv message_type key body,
    data = PDict kv /\
    message_type = match Py.lookup "messageType" kv with
                   | Some v => v
                   | None => PStr "Report"
                   end /\
    Py.hashable message_type = Ok key /\
    PStr body = match Py.lookup "messageBody" kv with
                | Some v => v
                | None => PStr ""
                end /\
    nth_error (conditions w) 0 =
      Some {| label := "Current Activity"; value := message_type;
              emoji := Spec.emoji_of message_type |} /\
    status w = Spec.emoji_of message_type ++ " Space Weather " ++ Py.str key /\
    (Spec.solar_activity w = Some (PStr "Active") <-> Spec.contains_ci "flare" body) /\
    (Spec.solar_activity w = Some (PStr "Calm") <-> ~ Spec.contains_ci "flare" body).
Proof.
  unfold _format_real_weather. intros H. inv_bind H.
  destruct (message_body_lower_inv _ _ E1) as (kv & body & -> & Hbody & ->).
  simpl in E. injection E as <-.
  eexists kv, _, a0, body. injection H as <-.
  rewrite (weather_types_get_emoji _ _ E0).
  repeat (split; [first [reflexivity | assumption]|]).
  unfold Spec.solar_activity. simpl.
  rewrite <- contains_lower_iff.
  destruct (Str.contains "flare" (Str.lower body)); split; split;
    intros; try reflexivity; try discriminate; try congruence.
Qed.

End Weather.

(** C9 as stated fails: an entry of type [FLR] is shown as [FLR], which is
    none of Report, Watch, Warning, Alert. *)
Lemma unrecognised_message_type_is_kept :
  ~ (forall (now : Py.datetime) (data : pyval) (w : WeatherResult),
        _format_real_weather now data = Ok w ->
        exists t, In t Spec.message_types /\
                  Spec.current_activity w = Some (PStr t) /\
                  status w = Spec.emoji_of (PStr t) ++ " Space Weather " ++ t).
Proof.
  intros H.
  destruct (H {| Py.hour := 9; Py.minute := 47 |}
              (PDict [("messageType", PStr "FLR");
                      ("messageBody", PStr "Solar Flare detected")])
              _ eq_refl) as (t & Hin & Hcur & _).
  cbv in Hcur. injection Hcur as <-.
  cbv in Hin. intuition discriminate.
Qed.

Lemma real_weather_message_type_and_solar_activity_witness :
  exists w,
    _format_real_weather {| Py.hour := 9; Py.minute := 47 |}
      (PDict [("messageType", PStr "FLR");
              ("messageBody", PStr "Solar Flare detected")]) = Ok w /\
    status w = "🛸 Space Weather FLR" /\
    Spec.current_activity w = Some (PStr "FLR") /\
    Spec.solar_activity w = Some (PStr "Active") /\
    Spec.contains_ci "flare" "Solar Flare detected".
Proof.
  eexists. split; [reflexivity|].
  destruct (real_weather_message_type_and_solar_activity
              {| Py.hour := 9; Py.minute := 47 |}
              (PDict [("messageType", PStr "FLR");
                      ("messageBody", PStr "Solar Flare detected")])
              _ eq_refl)
    as (kv & mt & key & body & Hd & Hmt & Hk & Hb & Hc & Hs & Ha & _).
  injection Hd as <-. simpl in Hmt, Hb. subst mt. injection Hb as ->.
  repeat split; try reflexivity.
  apply Ha. reflexivity.
Defined.

Lemma get_space_weather_fallback_on_request_failure_witness :
  exists w sc,
    get_space_weather (stub_explorer (Ok tt) (Ok PNone))
      (always (Raise (Raised "Read timed out."))) 4
      {| Py.hour := 21; Py.minute := 3 |} = Ok w /\
    In sc scenarios /\
    status w = sc_status sc /\
    conditions w = sc_conditions sc /\
    description w = PStr (sc_description sc) /\
    In (status w) Spec.fallback_statuses.
Proof.
  apply (get_space_weather_fallback_on_request_failure
           (stub_explorer (Ok tt) (Ok PNone))
           (always (Raise (Raised "Read timed out."))) 4
           {| Py.hour := 21; Py.minute := 3 |} (Raised "Read timed out.")).
  reflexivity.
Defined.

(** ** The daily image *)

Section DailyImage.

Variable self : SpaceImageExplorer.
Variable requests_get : http_client.

Lemma status_line_not_empty (n : Z) : "Status code: " ++ Str.of_Z n <> "".
Proof. discriminate. Qed.

(** C5, as the code has it.  When the daily-image request raises or
    answers with a status other than 200, the result has [success] false
    and its error is [Status code: <status>] for a status, which is never
    empty, and the description [str(e)] of the exception for a raised
    request: the error is empty only when that description is. *)
Theorem get_daily_nasa_image_failure (o : result response) :
  requests_get (apod_url self) = o ->
  (forall r, o = Ok r -> status_code r <> 200%Z) ->
  exists err,
    get_daily_nasa_image self requests_get = DailyImageError err /\
    daily_success (get_daily_nasa_image self requests_get) = false /\
    daily_error (get_daily_nasa_image self requests_get) = Some err /\
    err = match o with
          | Raise e => str_exn e
          | Ok r => "Status code: " ++ Str.of_Z (status_code r)
          end /\
    (err = "" -> exists e, o = Raise e /\ str_exn e = "").
Proof.
  intros Ho Hs. unfold get_daily_nasa_image, get_daily_nasa_image_try.
  rewrite Ho. destruct o as [r|e]; simpl.
  - destruct (Z.eqb_spec (status_code r) 200) as [E|_].
    + now elim (Hs r eq_refl).
    + eexists. repeat (split; [reflexivity|]). discriminate.
  - eexists. repeat (split; [reflexivity|]). eauto.
Qed.

(** C6. For a 200 daily-image answer whose JSON body is an object, the
    result has [success] true whichever of title, url, explanation and date
    the body lacks; a field that is missing is [None] in the result and a
    field that is present is the body's value unchanged. *)
Theorem get_daily_nasa_image_missing_fields
  (r : response) (body : list (string * pyval)) :
  requests_get (apod_url self) = Ok r ->
  status_code r = 200%Z ->
  json r = Ok (PDict body) ->
  exists img,
    get_daily_nasa_image self requests_get = DailyImageOk img /\
    daily_success (get_daily_nasa_image self requests_get) = true /\
    (forall k field,
        In (k, field) [("title", title); ("url", url);
                       ("explanation", explanation); ("date", date)] ->
        (Py.lookup k body = None -> field img = PNone) /\
        (forall v, Py.lookup k body = Some v -> field img = v)).
Proof.
  intros Ho Hs Hj. unfold get_daily_nasa_image, get_daily_nasa_image_try.
  rewrite Ho. simpl. rewrite Hs, Hj. simpl.
  eexists. repeat (split; [reflexivity|]).
  intros k field Hin. simpl in Hin.
  repeat (destruct Hin as [Hin|Hin];
          [injection Hin as <- <-; simpl; split;
           [intros -> | intros v ->]; reflexivity|]).
  destruct Hin.
Qed.

End DailyImage.

(** C5 as stated fails: a request that raises an exception whose
    description is empty, as [requests.exceptions.Timeout()] built without
    arguments, gives the error [""]. *)
Lemma daily_error_empty_for_empty_exception :
  ~ (forall (self : SpaceImageExplorer) (requests_get : http_client),
        (exists e, requests_get (apod_url self) = Raise e) \/
        (exists r, requests_get (apod_url self) = Ok r /\ status_code r <> 200%Z) ->
        daily_success (get_daily_nasa_image self requests_get) = false /\
        exists err,
          daily_error (get_daily_nasa_image self requests_get) = Some err /\
          err <> "").
Proof.
  intros H.
  destruct (H (stub_explorer (Ok tt) (Ok PNone)) (always (Raise (Raised ""))))
    as (_ & err & E & Hne).
  - left. eexists. reflexivity.
  - cbv in E. injection E as <-. now apply Hne.
Qed.

Lemma get_daily_nasa_image_failure_witness :
  exists err,
    get_daily_nasa_image (stub_explorer (Ok tt) (Ok PNone))
      (always (Ok {| status_code := 503; json := Raise (Raised "no body") |}))
    = DailyImageError err /\
    err = "Status code: 503".
Proof.
  destruct (get_daily_nasa_image_failure
              (stub_explorer (Ok tt) (Ok PNone))
              (always (Ok {| status_code := 503; json := Raise (Raised "no body") |}))
              _ eq_refl) as (err & E & _ & _ & Herr & _).
  - intros r Hr. injection Hr as <-. simpl. lia.
  - exists err. split; [exact E | exact Herr].
Defined.

Lemma get_daily_nasa_image_missing_fields_witness :
  exists img,
    get_daily_nasa_image (stub_explorer (Ok tt) (Ok PNone))
      (always (ok_json (PDict [("title", PStr "Orion"); ("date", PStr "2025-02-09")])))
    = DailyImageOk img /\
    title img = PStr "Orion" /\ url img = PNone /\
    explanation img = PNone /\ date img = PStr "2025-02-09".
Proof.
  destruct (get_daily_nasa_image_missing_fields
              (stub_explorer (Ok tt) (Ok PNone))
              (always (ok_json (PDict [("title", PStr "Orion");
                                       ("date", PStr "2025-02-09")])))
              _ _ eq_refl eq_refl eq_refl) as (img & E & _ & F).
  exists img. split; [exact E|]. repeat split.
  - apply (proj2 (F "title" title ltac:(simpl; tauto))). reflexivity.
  - apply (proj1 (F "url" url ltac:(simpl; tauto))). reflexivity.
  - apply (proj1 (F "explanation" explanation ltac:(simpl; tauto))). reflexivity.
  - apply (proj2 (F "date" date ltac:(simpl; tauto))). reflexivity.
Defined.

(** ** The chat *)

Section Chat.

Variable self : SpaceImageExplorer.
Variable rnd : nat.
Variable message : string.

Lemma chat_returns_apology (e : exn) :
  chat_try self rnd message = Raise e ->
  chat_with_space_expert self rnd message = Ok (apology e).
Proof. unfold chat_with_space_expert. intros ->. reflexivity. Qed.

Lemma generation_raises_chat_try (e : exn) :
  Spec.generation_raises self (prompt_of message) e ->
  chat_try self rnd message = Raise e.
Proof.
  unfold chat_try.
  intros [H | inputs ids pad H1 H2 H3 H | inputs ids pad outputs first H1 H2 H3 H4 H5 H];
    cbv zeta.
  - now rewrite H.
  - rewrite H1; simpl. rewrite H2; simpl. rewrite H3; simpl. now rewrite H.
  - rewrite H1; simpl. rewrite H2; simpl. rewrite H3; simpl. rewrite H4; simpl.
    rewrite H5; simpl. now rewrite H.
Qed.

(** C2. [chat_with_space_expert] never raises, whatever the message and
    whatever the tokenizer and the model do; when the tokenizer,
    [model.generate] or [decode] raises, it returns a string that starts
    with [Houston, we have a problem!] and contains the description of the
    exception. *)
Theorem chat_with_space_expert_never_raises :
  (exists s, chat_with_space_expert self rnd message = Ok s) /\
  (forall e,
      Spec.generation_raises self (prompt_of message) e ->
      exists rest,
        chat_with_space_expert self rnd message =
          Ok ("Houston, we have a problem!" ++ rest) /\
        exists pre post, rest = pre ++ str_exn e ++ post).
Proof.
  split.
  - unfold chat_with_space_expert.
    destruct (chat_try self rnd message); eauto.
  - intros e H. apply generation_raises_chat_try, chat_returns_apology in H.
    rewrite H. unfold apology.
    exists (" 🚀 Please try asking that question differently. Error: " ++ str_exn e).
    split; [reflexivity|].
    exists " 🚀 Please try asking that question differently. Error: ", "".
    now rewrite app_empty_r.
Qed.

End Chat.

Lemma chat_with_space_expert_never_raises_witness :
  exists rest,
    chat_with_space_expert
      (stub_explorer (Raise (Raised "CUDA out of memory")) (Ok PNone)) 0
      "Why do stars twinkle?"
    = Ok ("Houston, we have a problem!" ++ rest) /\
    exists pre post, rest = pre ++ "CUDA out of memory" ++ post.
Proof.
  apply (proj2 (chat_with_space_expert_never_raises
                  (stub_explorer (Raise (Raised "CUDA out of memory")) (Ok PNone))
                  0 "Why do stars twinkle?")
           (Raised "CUDA out of memory")).
  apply Spec.generate_raises with (inputs := tt) (ids := tt) (pad := PNone);
    reflexivity.
Defined.

Example clean_text_literal_marker :
  clean_text "As a space expert, explain: Why explain: it?  Because. "
  = "it?  Because.".
Proof. reflexivity. Qed.

(** Without the marker in the lowercased text the raw text is kept. *)
Lemma clean_text_unmarked (raw : string) :
  Str.contains marker (Str.lower raw) = false -> clean_text raw = raw.
Proof. unfold clean_text. intros ->. reflexivity. Qed.

(** ** Splitting at the marker *)

Section SplitFacts.

(** A separator whose first byte does not occur again in it. *)
Variable c0 : ascii.
Variable tail : string.
Hypothesis tail_lacks : Str.lacks c0 (String.length tail) tail = true.

Let sep := String c0 tail.

Lemma split_go_not_nil (s : string) :
  forall skip cur, Str.split_go sep s skip cur <> [].
Proof.
  induction s as [|c s IH]; intros skip cur; simpl; [discriminate|].
  destruct skip; [|apply IH].
  destruct (ascii_dec c0 c); [destruct (prefix tail s)|]; try discriminate; apply IH.
Qed.

Lemma last_cons {A : Type} (x d : A) (l : list A) :
  l <> [] -> last (x :: l) d = last l d.
Proof. destruct l; [congruence | reflexivity]. Qed.

Lemma prefix_lacks (a s : string) (n : nat) :
  prefix a s = true -> Str.lacks c0 n a = true -> n <= String.length a ->
  Str.lacks c0 n s = true.
Proof.
  revert s n. induction a as [|x a IH]; intros s n Hp Hl Hn.
  - simpl in Hn. assert (n = 0) as -> by lia. reflexivity.
  - destruct s as [|y s]; [destruct n; reflexivity|].
    simpl in Hp. destruct (ascii_dec x y) as [->|]; [|discriminate].
    destruct n as [|n]; [reflexivity|]. simpl in *.
    apply andb_true_iff in Hl. destruct Hl as [Hy Hl]. rewrite Hy. simpl.
    apply IH; [assumption | assumption | lia].
Qed.

Lemma split_go_last (s : string) :
  forall skip cur,
    Str.lacks c0 skip s = true ->
    last (Str.split_go sep s skip cur) "" =
      match Spec.after_last sep s with
      | Some rest => rest
      | None => cur ++ Str.drop skip s
      end.
Proof.
  induction s as [|c s IH]; intros skip cur Hl.
  - simpl. destruct skip; now rewrite app_empty_r.
  - cbn [Str.split_go Spec.after_last]. destruct skip as [|k].
    + destruct (prefix sep (String c s)) eqn:P.
      * rewrite last_cons by apply split_go_not_nil.
        rewrite IH.
        -- destruct (Spec.after_last sep s); [reflexivity|].
           unfold sep. simpl. rewrite Nat.sub_0_r. reflexivity.
        -- unfold sep in P. simpl in P.
           destruct (ascii_dec c0 c); [|discriminate].
           unfold sep. simpl. rewrite Nat.sub_0_r.
           eapply prefix_lacks; eauto.
      * rewrite IH by reflexivity.
        destruct (Spec.after_last sep s); [reflexivity|].
        simpl. now rewrite app_assoc_str.
    + simpl in Hl. apply andb_true_iff in Hl. destruct Hl as [Hc Hl].
      rewrite (IH k cur Hl).
      destruct (Spec.after_last sep s); [reflexivity|].
      assert (P : prefix sep (String c s) = false).
      { unfold sep. simpl. destruct (ascii_dec c0 c) as [->|]; [|reflexivity].
        rewrite Ascii.eqb_refl in Hc. discriminate. }
      rewrite P. reflexivity.
Qed.

Lemma after_last_none_iff (s : string) :
  Spec.after_last sep s = None <-> Str.contains sep s = false.
Proof.
  induction s as [|c s IH]; cbn [Spec.after_last Str.contains].
  - split; reflexivity.
  - destruct (Spec.after_last sep s).
    + split; [discriminate|]. intros H. apply orb_false_iff in H.
      destruct H as [_ H]. apply IH in H. discriminate.
    + destruct (prefix sep (String c s)); simpl.
      * split; discriminate.
      * split; [intros _; now apply IH | reflexivity].
Qed.

Lemma after_last_lacks (a post : string) :
  Str.lacks c0 (String.length a) a = true ->
  Spec.after_last sep (a ++ post) = Spec.after_last sep post.
Proof.
  induction a as [|x a IH]; simpl; intros H; [reflexivity|].
  apply andb_true_iff in H. destruct H as [Hx H]. rewrite (IH H).
  destruct (Spec.after_last sep post); [reflexivity|].
  destruct (ascii_dec c0 x) as [->|]; [|reflexivity].
  rewrite Ascii.eqb_refl in Hx. discriminate.
Qed.

Lemma drop_app (a post : string) : Str.drop (String.length a) (a ++ post) = post.
Proof. induction a as [|x a IH]; simpl; [now destruct post | exact IH]. Qed.

(** After the last occurrence of the separator comes what follows it. *)
Lemma after_last_app (pre post : string) :
  Str.contains sep post = false ->
  Spec.after_last sep (pre ++ sep ++ post) = Some post.
Proof.
  intros H. induction pre as [|c pre IH].
  - change ("" ++ sep ++ post) with (String c0 (tail ++ post)).
    cbn [Spec.after_last].
    rewrite (after_last_lacks _ _ tail_lacks).
    rewrite (proj2 (after_last_none_iff post) H).
    change (String c0 (tail ++ post)) with (sep ++ post).
    rewrite prefix_app, drop_app. reflexivity.
  - simpl. simpl in IH. now rewrite IH.
Qed.

(** [s.split(sep)[-1]]: what follows the last occurrence of the separator,
    the whole of [s] when there is none. *)
Lemma split_last (s : string) :
  last (Str.split sep s) "" =
    match Spec.after_last sep s with
    | Some rest => rest
    | None => s
    end.
Proof. unfold Str.split. now rewrite split_go_last. Qed.

End SplitFacts.

(** What the post-processing does, case by case. *)

Lemma marker_lacks : Str.lacks "e" 7 "xplain:" = true.
Proof. reflexivity. Qed.

Lemma clean_text_after_marker (pre post : string) :
  Str.contains marker post = false ->
  clean_text (pre ++ marker ++ post) = Str.strip post.
Proof.
  intros H. unfold clean_text.
  rewrite !lower_app. change (Str.lower marker) with marker.
  rewrite contains_intro.
  unfold marker. rewrite (split_last "e" "xplain:" marker_lacks).
  now rewrite (after_last_app "e" "xplain:" marker_lacks).
Qed.

Lemma clean_text_marker_in_other_case (raw : string) :
  Str.contains marker (Str.lower raw) = true ->
  Str.contains marker raw = false ->
  clean_text raw = Str.strip raw.
Proof.
  intros H N. unfold clean_text. rewrite H.
  unfold marker. rewrite (split_last "e" "xplain:" marker_lacks).
  now rewrite (proj2 (after_last_none_iff "e" "xplain:" raw) N).
Qed.

(** C8. The marker is looked for in the lowercased text but split off in
    the raw text: a raw text that has it capitalised passes the test and
    keeps everything, marker included, where the specification removes the
    text up to the marker. *)
Theorem clean_text_keeps_capitalised_marker :
  let raw := "As a space expert, Explain: Stars are distant suns." in
  Str.contains marker (Str.lower raw) = true /\
  clean_text raw = raw /\
  Spec.explanation_segment raw = "Stars are distant suns." /\
  chat_with_space_expert (stub_explorer (Ok tt) (Ok (PStr raw))) 0 "Stars?"
  = Ok (format_response raw "A day on Venus is longer than its year! 😮").
Proof. repeat split. Qed.

(** ** The image search *)

Section SearchItems.

Lemma has_links_true_inv (item : pyval) :
  has_links item = Ok true ->
  exists kv links,
    item = PDict kv /\ Py.lookup "links" kv = Some links /\ Py.truthy links = true.
Proof.
  unfold has_links. destruct item; simpl; try discriminate.
  - destruct (Str.contains "links" s); discriminate.
  - destruct (existsb (Py.is_str "links") l); discriminate.
  - destruct (Py.lookup "links" kv) as [links|] eqn:L; simpl; [|discriminate].
    intros H. injection H as H. eauto.
Qed.

Lemma has_links_false_inv (item : pyval) :
  has_links item = Ok false -> Spec.has_links_array item = false.
Proof.
  unfold has_links. destruct item; simpl; try reflexivity.
  destruct (Py.lookup "links" kv) as [links|]; simpl; [|reflexivity].
  intros H. injection H as H. destruct links as [| | | | |[|x l]|]; try reflexivity.
  discriminate.
Qed.

(** An item that passed the test and whose record was built has a
    non-empty [links] array, and the url recorded is its first [href]. *)
Lemma image_data_linked (item : pyval) (img : SearchImageItem) :
  has_links item = Ok true ->
  image_data item = Ok img ->
  Spec.has_links_array item = true /\ Spec.first_href item = Some (item_url img).
Proof.
  intros Hl Hi. destruct (has_links_true_inv _ Hl) as (kv & links & -> & Hk & _).
  unfold image_data in Hi. inv_bind Hi. injection Hi as <-.
  simpl in E1. rewrite Hk in E1. injection E1 as <-.
  simpl. rewrite Hk.
  destruct links as [| | | |s|[|x l]|]; simpl in E2; try discriminate.
  - destruct (Str.chars s); [discriminate|]. injection E2 as <-. discriminate.
  - injection E2 as <-. destruct x; simpl in E3; try discriminate.
    destruct (Py.lookup "href" kv0); [|discriminate].
    injection E3 as <-. auto.
Qed.

Lemma has_links_array_true (item : pyval) :
  Spec.has_links_array item = true -> has_links item = Ok true.
Proof.
  unfold Spec.has_links_array, has_links.
  destruct item; try discriminate. simpl.
  destruct (Py.lookup "links" kv) as [[| | | | |[|x l]|]|]; try discriminate.
  reflexivity.
Qed.

(** The loop, when it ends, has appended the records of the items with a
    [links] array, in their order. *)
Lemma collect_images_inv (items : list pyval) :
  forall acc imgs,
    collect_images items acc = Ok imgs ->
    exists new,
      imgs = (acc ++ new)%list /\
      Forall2 Spec.built_from (filter Spec.has_links_array items) new.
Proof.
  induction items as [|item items IH]; simpl; intros acc imgs H.
  - injection H as <-. exists []. split; [now rewrite app_nil_r | constructor].
  - inv_bind H. destruct a.
    + inv_bind H. destruct (image_data_linked _ _ E E0) as [Ha Hh].
      rewrite Ha. destruct (IH _ _ H) as (new & -> & F).
      exists (a :: new). split; [now rewrite <- app_assoc|].
      constructor; [split; assumption | exact F].
    + rewrite (has_links_false_inv _ E). apply IH, H.
Qed.

(** One record that cannot be built makes the whole loop raise. *)
Lemma collect_images_raises (items : list pyval) (item : pyval) (e : exn) :
  In item items ->
  has_links item = Ok true ->
  image_data item = Raise e ->
  forall acc, exists e', collect_images items acc = Raise e'.
Proof.
  intros Hin Hl Hr. induction items as [|x items IH]; [destruct Hin|].
  intros acc. simpl. destruct Hin as [->|Hin].
  - rewrite Hl. simpl. rewrite Hr. simpl. eauto.
  - destruct (has_links x) as [[|]|e1]; simpl; eauto.
    destruct (image_data x) as [img|e2]; simpl; eauto.
Qed.

(** The three defects of C10 make [image_data] raise. *)
Lemma image_data_malformed (item : pyval) :
  Spec.has_links_array item = true ->
  Spec.malformed item = true ->
  exists e, image_data item = Raise e.
Proof.
  unfold Spec.has_links_array, Spec.malformed.
  destruct item; try discriminate.
  destruct (Py.lookup "links" kv) as [[| | | | |[|link rest]|]|] eqn:L;
    try discriminate.
  intros _ M. unfold image_data, data0_get. simpl.
  destruct (Py.lookup "data" kv) as [data|]; simpl; [|eauto].
  destruct (Py.getitem0 data) as [first|e0] eqn:G; simpl.
  - destruct (Py.get first "title" _) as [t|e1]; simpl; [|eauto].
    destruct (Py.get first "description" _) as [d|e2]; simpl; [|eauto].
    rewrite L. simpl.
    destruct data as [| | | | |[|y ys]|]; simpl in G; try discriminate;
      destruct link; try discriminate;
      destruct (Py.lookup "href" kv0) eqn:R; try discriminate;
      simpl; rewrite R; simpl; eauto.
  - eauto.
Qed.

(** A complete item is tested and, when it has links, recorded without an
    exception. *)
Lemma complete_processed (item : pyval) :
  Spec.complete item = true ->
  has_links item = Ok (Spec.has_links_array item) /\
  (Spec.has_links_array item = true -> exists img, image_data item = Ok img).
Proof.
  unfold Spec.complete, Spec.has_links_array, has_links, image_data, data0_get.
  destruct item; try discriminate. simpl.
  destruct (Py.lookup "links" kv) as [[| | | | |[|link rest]|]|]; simpl;
    try discriminate; try (intros _; split; [reflexivity | discriminate]).
  destruct link; try discriminate.
  destruct (Py.lookup "data" kv) as [[| | | | |[|[| | | | | |first] more]|]|];
    try discriminate.
  destruct (Py.lookup "href" kv0) eqn:R; [|discriminate].
  intros _. split; [reflexivity|]. intros _. simpl. rewrite R. simpl. eauto.
Qed.

Lemma collect_images_complete (items : list pyval) :
  Forall (fun item => Spec.complete item = true) items ->
  forall acc, exists imgs, collect_images items acc = Ok imgs.
Proof.
  induction 1 as [|item items Hc _ IH]; intros acc; simpl; [eauto|].
  destruct (complete_processed item Hc) as [-> Hi].
  destruct (Spec.has_links_array item); simpl; [|apply IH].
  destruct (Hi eq_refl) as [img ->]. simpl. apply IH.
Qed.

(** No record is ever built from the characters of a string. *)
Lemma collect_images_strings (l : list string) :
  forall acc imgs, collect_images (map PStr l) acc = Ok imgs -> imgs = acc.
Proof.
  induction l as [|c l IH]; simpl; intros acc imgs H.
  - now injection H as <-.
  - unfold has_links in H. simpl in H.
    destruct (Str.contains "links" c); simpl in H; [discriminate|].
    apply IH, H.
Qed.

Variable requests_get : http_client.
Variable query : string.

(** On a response with an array of items the handler runs the loop on the
    first five. *)
Lemma search_try_items (r : response) (data : pyval) (items : list pyval) :
  requests_get (search_url query) = Ok r ->
  status_code r = 200%Z ->
  json r = Ok data ->
  Spec.response_items data = Some items ->
  search_nasa_images_try requests_get query =
    (images <- collect_images (firstn 5 items) [] ;; Ok (SearchOk images)).
Proof.
  intros Ho Hs Hj Hi. unfold search_nasa_images_try. rewrite Ho. simpl.
  rewrite Hs, Hj. simpl. unfold Spec.response_items in Hi.
  destruct data; try discriminate. simpl.
  destruct (Py.lookup "collection" kv) as [[| | | | | |c]|]; try discriminate.
  simpl. destruct (Py.lookup "items" c) as [[| | | | |l|]|]; try discriminate.
  injection Hi as ->. reflexivity.
Qed.

(** A successful search answered 200 and either ran the loop on the first
    five items of an array, or found nothing. *)
Lemma search_ok_inv (imgs : list SearchImageItem) :
  search_nasa_images requests_get query = SearchOk imgs ->
  exists r data,
    requests_get (search_url query) = Ok r /\
    status_code r = 200%Z /\
    json r = Ok data /\
    ((exists items, Spec.response_items data = Some items /\
                    collect_images (firstn 5 items) [] = Ok imgs) \/
     imgs = []).
Proof.
  unfold search_nasa_images.
  destruct (search_nasa_images_try requests_get query) as [res|e] eqn:T;
    [|discriminate].
  intros ->. unfold search_nasa_images_try in T. inv_bind T.
  destruct (Z.eqb_spec (status_code a) 200) as [Hs|_]; [|discriminate].
  inv_bind T. injection T as <-.
  exists a, a0. repeat (split; [assumption|]).
  destruct a2; [|right; now injection E3 as <-].
  inv_bind E3. rewrite E1 in E4. injection E4 as <-.
  destruct a0; try discriminate. simpl in E1.
  destruct (Py.lookup "collection" kv) as [c|] eqn:C; [|discriminate].
  injection E1 as ->.
  destruct a1; try discriminate. simpl in E5.
  destruct (Py.lookup "items" kv0) as [its|] eqn:I; [|discriminate].
  injection E5 as ->.
  destruct a4; try discriminate; simpl in E6; injection E6 as <-.
  - right. apply (collect_images_strings _ _ _ E3).
  - left. exists l. split; [|exact E3]. simpl. now rewrite C, I.
Qed.

End SearchItems.

Section Search.

Variable requests_get : http_client.
Variable query : string.

Lemma Forall2_In_r {A B : Type} (P : A -> B -> Prop) (l : list A) (l' : list B) (y : B) :
  Forall2 P l l' -> In y l' -> exists x, In x l /\ P x y.
Proof.
  induction 1 as [|x y' l l' Hxy _ IH]; intros Hin; [destruct Hin|].
  destruct Hin as [->|Hin].
  - exists x. split; [left; reflexivity | exact Hxy].
  - destruct (IH Hin) as (x' & Hx' & HP). exists x'. split; [right|]; assumption.
Qed.

(** C3, as the code has it.  On a 200 search response with an array of
    items, the search succeeds when each of the first five items is
    complete, and whenever it succeeds its images are the records of those
    of the first five items that have a non-empty [links] array, one image
    per such item and in the order of the response: the cap of five applies
    to the items read, before the items without links are dropped. *)
Theorem search_images_linked_items_of_first_five
  (r : response) (data : pyval) (items : list pyval) :
  requests_get (search_url query) = Ok r ->
  status_code r = 200%Z ->
  json r = Ok data ->
  Spec.response_items data = Some items ->
  (Forall (fun item => Spec.complete item = true) (firstn 5 items) ->
   exists imgs, search_nasa_images requests_get query = SearchOk imgs) /\
  (forall imgs,
      search_nasa_images requests_get query = SearchOk imgs ->
      List.length imgs =
        List.length (filter Spec.has_links_array (firstn 5 items)) /\
      List.length imgs <= 5 /\
      Forall2 (fun item img => image_data item = Ok img)
        (filter Spec.has_links_array (firstn 5 items)) imgs).
Proof.
  intros Ho Hs Hj Hi. unfold search_nasa_images.
  rewrite (search_try_items _ _ r data items Ho Hs Hj Hi). split.
  - intros Hc. destruct (collect_images_complete _ Hc []) as [imgs ->].
    simpl. eauto.
  - intros imgs H.
    destruct (collect_images (firstn 5 items) []) as [imgs'|e] eqn:C;
      simpl in H; [|discriminate].
    injection H as ->.
    destruct (collect_images_inv _ _ _ C) as (new & -> & F). simpl.
    assert (L : List.length new =
                List.length (filter Spec.has_links_array (firstn 5 items))).
    { symmetry. eapply Forall2_length, F. }
    split; [exact L|]. split.
    + rewrite L. etransitivity; [apply filter_length_le|]. apply firstn_le_length.
    + eapply Forall2_impl; [|exact F]. intros item img [Hb _]. exact Hb.
Qed.

(** C7, as the code has it.  Every image of a successful search comes from
    one of the first five items of the response, an item with a non-empty
    [links] array, and its url is the [href] value of that item's first
    link as the service gave it; items without a link give no image. *)
Theorem search_image_url_is_first_href
  (imgs : list SearchImageItem) (img : SearchImageItem) :
  search_nasa_images requests_get query = SearchOk imgs ->
  In img imgs ->
  exists r data items item,
    requests_get (search_url query) = Ok r /\
    json r = Ok data /\
    Spec.response_items data = Some items /\
    In item (firstn 5 items) /\
    Spec.has_links_array item = true /\
    Spec.first_href item = Some (item_url img).
Proof.
  intros H Hin.
  destruct (search_ok_inv _ _ _ H) as (r & data & Ho & _ & Hj & [(items & Hi & C)| ->]);
    [|destruct Hin].
  destruct (collect_images_inv _ _ _ C) as (new & -> & F). simpl in Hin.
  destruct (Forall2_In_r _ _ _ _ F Hin) as (item & Hitem & _ & Hh).
  apply filter_In in Hitem. destruct Hitem as [Hfive Ha].
  exists r, data, items, item. auto 10.
Qed.

(** C10. On a 200 search response with an array of items, if one of the
    first five items has a non-empty [links] array but lacks the [data] key,
    or has an empty [data] list, or has a first link without [href], the
    search returns [success] false with an error and no images, whatever
    the items before it were. *)
Theorem search_not_atomic_per_item
  (r : response) (data : pyval) (items : list pyval) (item : pyval) :
  requests_get (search_url query) = Ok r ->
  status_code r = 200%Z ->
  json r = Ok data ->
  Spec.response_items data = Some items ->
  In item (firstn 5 items) ->
  Spec.has_links_array item = true ->
  Spec.malformed item = true ->
  exists err,
    search_nasa_images requests_get query = SearchError err /\
    search_success (search_nasa_images requests_get query) = false /\
    search_images (search_nasa_images requests_get query) = None.
Proof.
  intros Ho Hs Hj Hi Hin Ha Hm. unfold search_nasa_images.
  rewrite (search_try_items _ _ r data items Ho Hs Hj Hi).
  destruct (image_data_malformed item Ha Hm) as [e He].
  destruct (collect_images_raises _ item e Hin (has_links_array_true _ Ha) He [])
    as [e' ->].
  simpl. eauto.
Qed.

End Search.

(** C3 as stated fails: of six items of which only the first has no
    links, four give an image, not five. *)
Lemma search_images_cap_before_filter :
  ~ (forall (requests_get : http_client) (query : string) (r : response)
            (items : list pyval) (imgs : list SearchImageItem),
        requests_get (search_url query) = Ok r ->
        status_code r = 200%Z ->
        json r = Ok (search_body items) ->
        search_nasa_images requests_get query = SearchOk imgs ->
        List.length imgs =
          Nat.min 5 (List.length (filter Spec.has_links_array items))).
Proof.
  intros H.
  specialize (H (always (ok_json (search_body six_items)))
                "nebula" _ _ _ eq_refl eq_refl eq_refl eq_refl).
  vm_compute in H. discriminate.
Qed.

(** C7 as stated fails: a first link whose [href] is the empty string gives
    an image with an empty url. *)
Lemma search_image_url_may_be_empty :
  ~ (forall (requests_get : http_client) (query : string)
            (imgs : list SearchImageItem) (img : SearchImageItem),
        search_nasa_images requests_get query = SearchOk imgs ->
        In img imgs ->
        exists u, item_url img = PStr u /\ u <> "").
Proof.
  intros H.
  destruct (H (always (ok_json (search_body [linked_item "a" ""]))) "nebula"
              _ _ eq_refl (or_introl eq_refl)) as (u & Hu & Hne).
  vm_compute in Hu. injection Hu as <-. now apply Hne.
Qed.

Lemma search_images_linked_items_of_first_five_witness :
  exists imgs,
    search_nasa_images (always (ok_json (search_body six_items))) "nebula"
    = SearchOk imgs /\
    List.length imgs =
      List.length (filter Spec.has_links_array (firstn 5 six_items)) /\
    List.length imgs = 4.
Proof.
  destruct (search_images_linked_items_of_first_five
              (always (ok_json (search_body six_items))) "nebula"
              _ _ six_items eq_refl eq_refl eq_refl eq_refl) as [Hok Himgs].
  destruct Hok as [imgs E].
  - repeat constructor.
  - exists imgs. split; [exact E|].
    destruct (Himgs imgs E) as (L & _ & _). split; [exact L|].
    rewrite L. reflexivity.
Defined.

Lemma search_image_url_is_first_href_witness :
  exists item,
    In item (firstn 5 six_items) /\
    Spec.has_links_array item = true /\
    Spec.first_href item = Some (PStr "https://images/c.jpg").
Proof.
  destruct (search_image_url_is_first_href
              (always (ok_json (search_body six_items))) "nebula"
              _ {| item_title := PStr "c"; item_description := PStr "No description";
                   item_url := PStr "https://images/c.jpg";
                   item_date_created := PStr "Unknown date" |}
              eq_refl (or_intror (or_introl eq_refl)))
    as (r & data & items & item & Ho & Hj & Hi & Hin & Ha & Hh).
  injection Ho as <-. injection Hj as <-. injection Hi as <-.
  exists item. auto.
Defined.

Lemma search_not_atomic_per_item_witness :
  let requests_get :=
    always (ok_json (search_body
      [ linked_item "a" "https://images/a.jpg";
        item_without_data "https://images/b.jpg" ])) in
  exists err,
    search_nasa_images requests_get "nebula" = SearchError err /\
    search_success (search_nasa_images requests_get "nebula") = false /\
    search_images (search_nasa_images requests_get "nebula") = None.
Proof.
  intros requests_get.
  apply (search_not_atomic_per_item requests_get "nebula" _ _ _
           (item_without_data "https://images/b.jpg")
           eq_refl eq_refl eq_refl eq_refl
           (or_intror (or_introl eq_refl)) eq_refl eq_refl).
Defined.

Example search_discards_earlier_items :
  search_nasa_images
    (always (ok_json (search_body
       [ linked_item "a" "https://images/a.jpg";
         item_without_data "https://images/b.jpg" ])))
    "nebula"
  = SearchError "'data'".
Proof. reflexivity. Qed.

(** * Further properties of the handlers *)

(** ** The daily image *)

Section DailyImageMore.

Variable self : SpaceImageExplorer.
Variable requests_get : http_client.

Lemma daily_success_inv :
  daily_success (get_daily_nasa_image self requests_get) = true ->
  exists r body,
    requests_get (apod_url self) = Ok r /\
    status_code r = 200%Z /\
    json r = Ok (PDict body).
Proof.
  unfold get_daily_nasa_image, get_daily_nasa_image_try.
  destruct (requests_get (apod_url self)) as [r|e]; simpl; [|discriminate].
  destruct (Z.eqb_spec (status_code r) 200) as [Hs|_]; [|discriminate].
  destruct (json r) as [data|e] eqn:J; simpl; [|discriminate].
  destruct data; simpl; try discriminate. intros _. exists r, kv. auto.
Qed.

(** The daily image is a success exactly when the request is answered with
    status 200 and a body that is a JSON object. *)
Theorem get_daily_nasa_image_success_iff :
  daily_success (get_daily_nasa_image self requests_get) = true <->
  exists r body,
    requests_get (apod_url self) = Ok r /\
    status_code r = 200%Z /\
    json r = Ok (PDict body).
Proof.
  split; [apply daily_success_inv|].
  intros (r & body & Ho & Hs & Hj).
  unfold get_daily_nasa_image, get_daily_nasa_image_try.
  rewrite Ho. simpl. rewrite Hs, Hj. reflexivity.
Qed.

(** A 200 answer is not enough: when the body is not JSON the error is the
    description of what [json()] raised, and when it is JSON but not an
    object the error is the [AttributeError] of the first [data.get]. *)
Theorem get_daily_nasa_image_unreadable_body (r : response) :
  requests_get (apod_url self) = Ok r ->
  status_code r = 200%Z ->
  (forall e, json r = Raise e ->
     get_daily_nasa_image self requests_get = DailyImageError (str_exn e)) /\
  (forall data, json r = Ok data -> (forall body, data <> PDict body) ->
     get_daily_nasa_image self requests_get =
       DailyImageError ("'" ++ Py.type_name data ++ "' object has no attribute 'get'")).
Proof.
  intros Ho Hs. unfold get_daily_nasa_image, get_daily_nasa_image_try.
  rewrite Ho. simpl. rewrite Hs. simpl. split.
  - intros e ->. reflexivity.
  - intros data -> Hn. destruct data; try reflexivity. now elim (Hn kv).
Qed.

End DailyImageMore.

Lemma get_daily_nasa_image_unreadable_body_witness :
  get_daily_nasa_image (stub_explorer (Ok tt) (Ok PNone))
    (always (ok_json (PList [])))
  = DailyImageError "'list' object has no attribute 'get'".
Proof.
  apply (proj2 (get_daily_nasa_image_unreadable_body
                  (stub_explorer (Ok tt) (Ok PNone))
                  (always (ok_json (PList []))) _ eq_refl eq_refl)
           (PList []) eq_refl).
  discriminate.
Defined.

(** ** The image search *)

Section SearchMore.

Variable requests_get : http_client.
Variable query : string.

(** When the search request raises or is answered with a status other
    than 200, the result has [success] false and its error is the
    description of the exception or [Status code: <status>]. *)
Theorem search_nasa_images_failure (o : result response) :
  requests_get (search_url query) = o ->
  (forall r, o = Ok r -> status_code r <> 200%Z) ->
  search_nasa_images requests_get query =
    SearchError match o with
                | Raise e => str_exn e
                | Ok r => "Status code: " ++ Str.of_Z (status_code r)
                end.
Proof.
  intros Ho Hs. unfold search_nasa_images, search_nasa_images_try.
  rewrite Ho. destruct o as [r|e]; simpl; [|reflexivity].
  destruct (Z.eqb_spec (status_code r) 200) as [E|_]; [|reflexivity].
  now elim (Hs r eq_refl).
Qed.

(** A 200 body that is an object without the [collection] key is an
    error, the [KeyError] being caught: [success] is false and the error is
    the key in quotes. *)
Theorem search_nasa_images_missing_collection
  (r : response) (body : list (string * pyval)) :
  requests_get (search_url query) = Ok r ->
  status_code r = 200%Z ->
  json r = Ok (PDict body) ->
  Py.lookup "collection" body = None ->
  search_nasa_images requests_get query = SearchError "'collection'".
Proof.
  intros Ho Hs Hj Hc. unfold search_nasa_images, search_nasa_images_try.
  rewrite Ho. simpl. rewrite Hs, Hj. simpl. rewrite Hc. reflexivity.
Qed.

(** A collection without the [items] key is not an error: the search
    succeeds with no image. *)
Theorem search_nasa_images_missing_items
  (r : response) (body collection : list (string * pyval)) :
  requests_get (search_url query) = Ok r ->
  status_code r = 200%Z ->
  json r = Ok (PDict body) ->
  Py.lookup "collection" body = Some (PDict collection) ->
  Py.lookup "items" collection = None ->
  search_nasa_images requests_get query = SearchOk [].
Proof.
  intros Ho Hs Hj Hc Hi. unfold search_nasa_images, search_nasa_images_try.
  rewrite Ho. simpl. rewrite Hs, Hj. simpl. rewrite Hc. simpl. rewrite Hi.
  reflexivity.
Qed.

Lemma collect_images_length (items : list pyval) (imgs : list SearchImageItem) :
  collect_images (firstn 5 items) [] = Ok imgs -> List.length imgs <= 5.
Proof.
  intros C. destruct (collect_images_inv _ _ _ C) as (new & -> & F). simpl.
  rewrite <- (Forall2_length F).
  etransitivity; [apply filter_length_le|]. apply firstn_le_length.
Qed.

(** A successful search never has more than five images, whatever the
    body was. *)
Theorem search_nasa_images_at_most_five (imgs : list SearchImageItem) :
  search_nasa_images requests_get query = SearchOk imgs ->
  List.length imgs <= 5.
Proof.
  intros H.
  destruct (search_ok_inv _ _ _ H) as (r & data & _ & _ & _ & [(items & _ & C)| ->]);
    [|simpl; lia].
  destruct (collect_images_inv _ _ _ C) as (new & -> & F). simpl.
  rewrite <- (Forall2_length F).
  etransitivity; [apply filter_length_le|]. apply firstn_le_length.
Qed.

Lemma image_data_fields (item : pyval) (img : SearchImageItem) :
  image_data item = Ok img ->
  exists entry,
    Shape.first_data item = Some entry /\
    item_title img = Shape.value_or entry "title" "No title" /\
    item_description img = Shape.value_or entry "description" "No description" /\
    item_date_created img = Shape.value_or entry "date_created" "Unknown date".
Proof.
  unfold image_data, data0_get. intros H. inv_bind H.
  destruct item; try discriminate. simpl in *.
  injection H as <-. simpl.
  destruct (Py.lookup "data" kv) as [[| | | |s|[|[| | | | | |entry] more]|]|];
    simpl in *; try discriminate;
    try (destruct (Str.chars s); simpl in *; discriminate).
  injection E as <-. injection E0 as <-. injection E4 as <-.
  exists entry. auto.
Qed.

(** The defaults of an image.  In a successful search every image comes
    from one of the first five items, and its title, description and date
    are the values the first [data] entry of that item has under [title],
    [description] and [date_created], whatever they are (a [null] stays
    [None]), and [No title], [No description], [Unknown date] for a key the
    entry does not have. *)
Theorem search_image_defaults (imgs : list SearchImageItem) (img : SearchImageItem) :
  search_nasa_images requests_get query = SearchOk imgs ->
  In img imgs ->
  exists r data items item entry,
    requests_get (search_url query) = Ok r /\
    json r = Ok data /\
    Spec.response_items data = Some items /\
    In item (firstn 5 items) /\
    Shape.first_data item = Some entry /\
    item_title img = Shape.value_or entry "title" "No title" /\
    item_description img = Shape.value_or entry "description" "No description" /\
    item_date_created img = Shape.value_or entry "date_created" "Unknown date".
Proof.
  intros H Hin.
  destruct (search_ok_inv _ _ _ H) as (r & data & Ho & _ & Hj & [(items & Hi & C)| ->]);
    [|destruct Hin].
  destruct (collect_images_inv _ _ _ C) as (new & -> & F). simpl in Hin.
  destruct (Forall2_In_r _ _ _ _ F Hin) as (item & Hitem & Hb & _).
  apply filter_In in Hitem. destruct Hitem as [Hfive _].
  destruct (image_data_fields _ _ Hb) as (entry & Hd & Ht & Hde & Hc).
  exists r, data, items, item, entry. auto 10.
Qed.

End SearchMore.

(** The items after the fifth are never read: two 200 answers whose arrays
    of items agree on their first five give the same result, be it the
    images or the error. *)
Theorem search_nasa_images_reads_five_items
  (get1 get2 : http_client) (query : string) (r1 r2 : response)
  (data1 data2 : pyval) (items1 items2 : list pyval) :
  get1 (search_url query) = Ok r1 -> status_code r1 = 200%Z -> json r1 = Ok data1 ->
  get2 (search_url query) = Ok r2 -> status_code r2 = 200%Z -> json r2 = Ok data2 ->
  Spec.response_items data1 = Some items1 ->
  Spec.response_items data2 = Some items2 ->
  firstn 5 items1 = firstn 5 items2 ->
  search_nasa_images get1 query = search_nasa_images get2 query.
Proof.
  intros Ho1 Hs1 Hj1 Ho2 Hs2 Hj2 Hi1 Hi2 E. unfold search_nasa_images.
  rewrite (search_try_items _ _ _ _ _ Ho1 Hs1 Hj1 Hi1).
  rewrite (search_try_items _ _ _ _ _ Ho2 Hs2 Hj2 Hi2).
  now rewrite E.
Qed.

Lemma search_nasa_images_failure_witness :
  search_nasa_images
    (always (Ok {| status_code := 429; json := Ok (search_body six_items) |}))
    "nebula"
  = SearchError "Status code: 429".
Proof.
  apply (search_nasa_images_failure
           (always (Ok {| status_code := 429; json := Ok (search_body six_items) |}))
           "nebula" _ eq_refl).
  intros r Hr. injection Hr as <-. simpl. lia.
Defined.

Lemma search_nasa_images_missing_collection_witness :
  search_nasa_images (always (ok_json (PDict [("reason", PStr "bad query")]))) "nebula"
  = SearchError "'collection'".
Proof.
  apply (search_nasa_images_missing_collection
           (always (ok_json (PDict [("reason", PStr "bad query")]))) "nebula"
           _ _ eq_refl eq_refl eq_refl eq_refl).
Defined.

Lemma search_nasa_images_missing_items_witness :
  search_nasa_images
    (always (ok_json (PDict [("collection", PDict [("version", PStr "1.0")])])))
    "nebula"
  = SearchOk [].
Proof.
  apply (search_nasa_images_missing_items
           (always (ok_json (PDict [("collection", PDict [("version", PStr "1.0")])])))
           "nebula" _ _ _ eq_refl eq_refl eq_refl eq_refl eq_refl).
Defined.

Lemma search_nasa_images_at_most_five_witness :
  exists imgs,
    search_nasa_images (always (ok_json (search_body six_items))) "nebula"
    = SearchOk imgs /\
    List.length imgs <= 5.
Proof.
  eexists. split; [reflexivity|].
  apply (search_nasa_images_at_most_five
           (always (ok_json (search_body six_items))) "nebula" _ eq_refl).
Defined.

Lemma search_image_defaults_witness :
  exists entry,
    Shape.first_data
      (PDict [ ("data", PList [PDict [("title", PNone)]]);
               ("links", PList [PDict [("href", PStr "https://images/a.jpg")]]) ])
    = Some entry /\
    PNone = Shape.value_or entry "title" "No title" /\
    PStr "No description" = Shape.value_or entry "description" "No description".
Proof.
  destruct (search_image_defaults
              (always (ok_json (search_body
                 [ PDict [ ("data", PList [PDict [("title", PNone)]]);
                           ("links",
                            PList [PDict [("href", PStr "https://images/a.jpg")]]) ] ])))
              "nebula" _
              {| item_title := PNone; item_description := PStr "No description";
                 item_url := PStr "https://images/a.jpg";
                 item_date_created := PStr "Unknown date" |}
              eq_refl (or_introl eq_refl))
    as (r & data & items & item & entry & Ho & Hj & Hi & Hin & Hd & Ht & Hde & _).
  injection Ho as <-. injection Hj as <-. injection Hi as <-.
  destruct Hin as [<-|[]]. exists entry. auto.
Defined.

Lemma search_nasa_images_reads_five_items_witness :
  search_nasa_images
    (always (ok_json (search_body (six_items ++ [PNone])))) "nebula"
  = search_nasa_images
      (always (ok_json (search_body (firstn 5 six_items)))) "nebula".
Proof.
  apply (search_nasa_images_reads_five_items
           (always (ok_json (search_body (six_items ++ [PNone]))))
           (always (ok_json (search_body (firstn 5 six_items)))) "nebula"
           _ _ _ _ _ _
           eq_refl eq_refl eq_refl eq_refl eq_refl eq_refl eq_refl eq_refl eq_refl).
Defined.

(** ** Space weather *)

Section WeatherMore.

Variable self : SpaceImageExplorer.
Variable requests_get : http_client.
Variable rnd : nat.
Variable now : Py.datetime.

Lemma simulated_weather_fallback :
  exists w, _generate_simulated_weather rnd now = Ok w /\ Shape.fallback rnd now w.
Proof.
  unfold _generate_simulated_weather, Py.random_choice, Shape.fallback.
  change (List.length scenarios) with 3.
  destruct (nth_error scenarios (rnd mod 3)) as [sc|] eqn:E.
  - simpl. eauto.
  - apply nth_error_None in E. change (List.length scenarios) with 3 in E.
    assert (rnd mod 3 < 3) by (apply Nat.mod_upper_bound; lia). lia.
Qed.

(** Without an entry to format the fallback is used: when the request
    raises, when the status is not 200 (the body is then not read), when the
    body is not JSON, and when the JSON value is empty or otherwise false
    ([[]], [{}], [null], [0], [""]).  The scenario is the one the number
    drawn selects, stamped with the current time. *)
Theorem get_space_weather_fallback_without_entry (o : result response) :
  requests_get (weather_url self) = o ->
  (forall r data,
      o = Ok r -> status_code r = 200%Z -> json r = Ok data ->
      Py.truthy data = false) ->
  exists w,
    get_space_weather self requests_get rnd now = Ok w /\
    Shape.fallback rnd now w.
Proof.
  intros Ho H. destruct simulated_weather_fallback as (w & Hw & Hf).
  exists w. split; [|exact Hf].
  unfold get_space_weather, get_space_weather_try. rewrite Ho.
  destruct o as [r|e]; simpl; [|exact Hw].
  destruct (Z.eqb_spec (status_code r) 200) as [Hs|_]; [|exact Hw].
  destruct (json r) as [data|e] eqn:J; simpl; [|exact Hw].
  now rewrite (H r data eq_refl Hs J).
Qed.

Lemma formattable_formats (entry : pyval) :
  Shape.formattable entry = true ->
  exists w, _format_real_weather now entry = Ok w.
Proof.
  unfold Shape.formattable. destruct entry; try discriminate.
  intros H. apply andb_true_iff in H. destruct H as [Ht Hb].
  destruct (Py.lookup "messageBody" kv) as [v|] eqn:B.
  - destruct v; try discriminate.
    destruct (Py.lookup "messageType" kv) as [t|] eqn:T.
    + destruct t; try discriminate;
        (eapply real_weather_formats with (body := s);
         [rewrite T; reflexivity | now rewrite B]).
    + eapply real_weather_formats with (body := s);
        [rewrite T; reflexivity | now rewrite B].
  - destruct (Py.lookup "messageType" kv) as [t|] eqn:T.
    + destruct t; try discriminate;
        (eapply real_weather_formats with (body := "");
         [rewrite T; reflexivity | now rewrite B]).
    + eapply real_weather_formats with (body := "");
        [rewrite T; reflexivity | now rewrite B].
Qed.

Lemma unformattable_raises (entry : pyval) :
  Shape.formattable entry = false ->
  exists e, _format_real_weather now entry = Raise e.
Proof.
  unfold Shape.formattable, _format_real_weather, message_body_lower.
  destruct entry; simpl; eauto.
  intros H. apply andb_false_iff in H.
  destruct (Py.lookup "messageType" kv) as [t|]; simpl.
  - destruct t; simpl; eauto;
      (destruct H as [H|H]; [discriminate|]);
      destruct (Py.lookup "messageBody" kv) as [v|]; try discriminate;
      destruct v; simpl; try discriminate; eauto.
  - destruct H as [H|H]; [discriminate|].
    destruct (Py.lookup "messageBody" kv) as [v|]; try discriminate.
    destruct v; simpl; try discriminate; eauto.
Qed.

(** Of a 200 answer that is a non-empty list only the first entry counts.
    If it can be formatted it is the result, whatever follows it; if it
    cannot (it is not an object, its message body is not a string, its
    message type is a list or an object) the error is masked and the
    fallback is used, even when later entries are well formed. *)
Theorem get_space_weather_first_entry_decides
  (r : response) (entry : pyval) (rest : list pyval) :
  requests_get (weather_url self) = Ok r ->
  status_code r = 200%Z ->
  json r = Ok (PList (entry :: rest)) ->
  exists w,
    get_space_weather self requests_get rnd now = Ok w /\
    (Shape.formattable entry = true -> _format_real_weather now entry = Ok w) /\
    (Shape.formattable entry = false -> Shape.fallback rnd now w).
Proof.
  intros Ho Hs Hj.
  destruct (Shape.formattable entry) eqn:F.
  - destruct (formattable_formats entry F) as [w Hw]. exists w.
    split; [|split; [auto | discriminate]].
    eapply get_space_weather_real_path; eauto.
  - destruct (unformattable_raises entry F) as [e He].
    destruct simulated_weather_fallback as (w & Hw & Hf). exists w.
    split; [|split; [discriminate | auto]].
    unfold get_space_weather, get_space_weather_try.
    rewrite Ho. simpl. rewrite Hs, Hj. simpl. rewrite He. exact Hw.
Qed.

(** A 200 answer whose JSON value is not a list never reaches the
    formatter: for an object (an error report, say), a text or a number the
    subscript or the [.get] raises, and the fallback is used. *)
Theorem get_space_weather_not_a_list (r : response) (data : pyval) :
  requests_get (weather_url self) = Ok r ->
  status_code r = 200%Z ->
  json r = Ok data ->
  (forall l, data <> PList l) ->
  exists w,
    get_space_weather self requests_get rnd now = Ok w /\
    Shape.fallback rnd now w.
Proof.
  intros Ho Hs Hj Hn. destruct simulated_weather_fallback as (w & Hw & Hf).
  exists w. split; [|exact Hf].
  unfold get_space_weather, get_space_weather_try.
  rewrite Ho. simpl. rewrite Hs, Hj. simpl.
  destruct (Py.truthy data); [|exact Hw].
  destruct data; simpl; try exact Hw.
  - destruct (Str.chars s); exact Hw.
  - now elim (Hn l).
Qed.

(** The rest of a formatted entry.  Aurora Forecast is [Visible] exactly
    when the message body (empty when absent) contains [aurora] up to case,
    and [Not Visible] otherwise; the description is the message body, or
    the placeholder when the entry has none; the time is the current time
    in the form [%I:%M %p]. *)
Theorem real_weather_aurora_and_description (data : pyval) (w : WeatherResult) :
  _format_real_weather now data = Ok w ->
  exists kv body,
    data = PDict kv /\
    PStr body = Shape.value_or kv "messageBody" "" /\
    (Shape.aurora_forecast w = Some (PStr "Visible") <->
       Spec.contains_ci "aurora" body) /\
    (Shape.aurora_forecast w = Some (PStr "Not Visible") <->
       ~ Spec.contains_ci "aurora" body) /\
    description w =
      Shape.value_or kv "messageBody" "Space weather information currently unavailable" /\
    time w = Py.strftime_I_M_p now.
Proof.
  unfold _format_real_weather. intros H. inv_bind H.
  destruct (message_body_lower_inv _ _ E2) as (kv & body & -> & Hbody & ->).
  simpl in E3. injection E3 as <-. injection H as <-.
  exists kv, body. split; [reflexivity|]. split; [exact Hbody|].
  unfold Shape.aurora_forecast. simpl.
  rewrite <- contains_lower_iff.
  destruct (Str.contains "aurora" (Str.lower body));
    repeat split; intros; try reflexivity; try discriminate; try congruence.
Qed.

Lemma real_weather_description_text (data : pyval) (w : WeatherResult) :
  _format_real_weather now data = Ok w ->
  exists text, description w = PStr text.
Proof.
  unfold _format_real_weather. intros H. inv_bind H. injection H as <-. simpl.
  destruct (message_body_lower_inv _ _ E1) as (kv & body & -> & Hb & _).
  simpl in E3. injection E3 as <-.
  destruct (Py.lookup "messageBody" kv); [rewrite <- Hb|]; eauto.
Qed.

(** The description of a weather result is always a text, on both
    paths. *)
Lemma weather_description_text (w : WeatherResult) :
  get_space_weather self requests_get rnd now = Ok w ->
  exists text, description w = PStr text.
Proof.
  intros H. destruct (get_space_weather_cases self requests_get rnd now)
    as (w' & E & Hc).
  rewrite E in H. injection H as ->.
  destruct Hc as [(data & Hf)|(sc & _ & ->)]; [|simpl; eauto].
  exact (real_weather_description_text _ _ Hf).
Qed.

End WeatherMore.

Lemma get_space_weather_fallback_without_entry_witness :
  exists w,
    get_space_weather (stub_explorer (Ok tt) (Ok PNone))
      (always (ok_json (PList []))) 7 {| Py.hour := 23; Py.minute := 59 |} = Ok w /\
    Shape.fallback 7 {| Py.hour := 23; Py.minute := 59 |} w.
Proof.
  apply (get_space_weather_fallback_without_entry
           (stub_explorer (Ok tt) (Ok PNone)) (always (ok_json (PList []))) 7
           {| Py.hour := 23; Py.minute := 59 |} _ eq_refl).
  intros r data Hr _ Hj. injection Hr as <-. simpl in Hj. injection Hj as <-.
  reflexivity.
Defined.

Lemma get_space_weather_first_entry_decides_witness :
  exists w,
    get_space_weather (stub_explorer (Ok tt) (Ok PNone))
      (always (ok_json (PList [ PDict [("messageBody", PNone)];
                                PDict [("messageBody", PStr "CME detected")] ])))
      2 {| Py.hour := 6; Py.minute := 30 |} = Ok w /\
    Shape.fallback 2 {| Py.hour := 6; Py.minute := 30 |} w.
Proof.
  destruct (get_space_weather_first_entry_decides
              (stub_explorer (Ok tt) (Ok PNone))
              (always (ok_json (PList [ PDict [("messageBody", PNone)];
                                        PDict [("messageBody", PStr "CME detected")] ])))
              2 {| Py.hour := 6; Py.minute := 30 |}
              _ _ _ eq_refl eq_refl eq_refl) as (w & E & _ & Hf).
  exists w. split; [exact E | apply Hf; reflexivity].
Defined.

Lemma real_weather_aurora_and_description_witness :
  exists w,
    _format_real_weather {| Py.hour := 6; Py.minute := 30 |}
      (PDict [("messageType", PStr "Watch")]) = Ok w /\
    Shape.aurora_forecast w = Some (PStr "Not Visible") /\
    description w = PStr "Space weather information currently unavailable" /\
    time w = "06:30 AM".
Proof.
  eexists. split; [reflexivity|].
  destruct (real_weather_aurora_and_description
              {| Py.hour := 6; Py.minute := 30 |}
              (PDict [("messageType", PStr "Watch")]) _ eq_refl)
    as (kv & body & Hd & Hb & _ & _ & Hdesc & Ht).
  injection Hd as <-. split; [reflexivity|]. split; [exact Hdesc | exact Ht].
Defined.

(** ** The chat *)

Section StripFacts.

Lemma concat_app (a b : list string) :
  String.concat "" (a ++ b) = String.concat "" a ++ String.concat "" b.
Proof.
  induction a as [|x a IH]; [reflexivity|].
  destruct a as [|y a].
  - simpl. destruct b; simpl; [now rewrite app_empty_r | reflexivity].
  - change (String.concat "" ((x :: y :: a) ++ b))
      with (x ++ "" ++ String.concat "" ((y :: a) ++ b)).
    rewrite IH. simpl. now rewrite app_assoc_str.
Qed.

Lemma drop_while_suffix (p : string -> bool) (l : list string) :
  exists pre, l = (pre ++ Str.drop_while p l)%list.
Proof.
  induction l as [|x l [pre IH]]; simpl.
  - exists []. reflexivity.
  - destruct (p x).
    + exists (x :: pre). simpl. now rewrite <- IH.
    + exists []. reflexivity.
Qed.

(** [strip] returns a part of its argument. *)
Lemma strip_substring (s : string) :
  exists l r, s = l ++ Str.strip s ++ r.
Proof.
  unfold Str.strip.
  destruct (drop_while_suffix Str.isspace (Str.chars s)) as [pre Hpre].
  destruct (drop_while_suffix Str.isspace
              (rev (Str.drop_while Str.isspace (Str.chars s)))) as [suf Hsuf].
  apply (f_equal (@rev string)) in Hsuf. rewrite rev_involutive, rev_app_distr in Hsuf.
  exists (String.concat "" pre), (String.concat "" (rev suf)).
  rewrite <- !concat_app, <- Hsuf, <- Hpre. symmetry. apply concat_chars.
Qed.

Lemma contains_part (n l m r : string) :
  Str.contains n (l ++ m ++ r) = false -> Str.contains n m = false.
Proof.
  intros H. destruct (Str.contains n m) eqn:C; [|reflexivity].
  apply contains_iff in C. destruct C as (pre & post & ->).
  rewrite <- H. symmetry. apply contains_iff.
  exists (l ++ pre), (post ++ r). now rewrite !app_assoc_str.
Qed.

Lemma strip_lacks (n s : string) :
  Str.contains n s = false -> Str.contains n (Str.strip s) = false.
Proof.
  intros H. destruct (strip_substring s) as (l & r & E).
  rewrite E in H. exact (contains_part _ _ _ _ H).
Qed.

Lemma drop_suffix (k : nat) (s : string) : exists pre, s = pre ++ Str.drop k s.
Proof.
  revert s. induction k as [|k IH]; intros s.
  - exists "". now destruct s.
  - destruct s as [|c s]; [exists ""; reflexivity|].
    destruct (IH s) as [pre E]. exists (String c pre). simpl. now rewrite <- E.
Qed.

Lemma drop_lacks (n : string) (k : nat) (s : string) :
  Str.contains n s = false -> Str.contains n (Str.drop k s) = false.
Proof.
  intros H. destruct (drop_suffix k s) as [pre E]. rewrite E in H.
  apply (contains_part n pre (Str.drop k s) "").
  now rewrite app_empty_r.
Qed.

(** What follows the last occurrence has no occurrence. *)
Lemma after_last_lacks_needle (c0 : ascii) (tail s rest : string) :
  Spec.after_last (String c0 tail) s = Some rest ->
  Str.contains (String c0 tail) rest = false.
Proof.
  induction s as [|c s IH]; cbn [Spec.after_last]; [discriminate|].
  destruct (Spec.after_last (String c0 tail) s) as [r|] eqn:A.
  - intros H. injection H as <-. now apply IH.
  - destruct (prefix (String c0 tail) (String c s)); [|discriminate].
    intros H. injection H as <-. simpl.
    apply drop_lacks. now apply after_last_none_iff.
Qed.

Lemma contains_lower (s : string) :
  Str.contains marker s = true -> Str.contains marker (Str.lower s) = true.
Proof.
  intros H. apply contains_iff in H. destruct H as (pre & post & ->).
  rewrite !lower_app. apply contains_intro.
Qed.

End StripFacts.

(** The explanation segment never contains the marker in its lower-case
    spelling, whatever the model generated. *)
Theorem clean_text_lacks_marker (raw : string) :
  Str.contains marker (clean_text raw) = false.
Proof.
  unfold clean_text. destruct (Str.contains marker (Str.lower raw)) eqn:C.
  - apply strip_lacks. unfold marker.
    rewrite (split_last "e" "xplain:" marker_lacks).
    destruct (Spec.after_last "explain:" raw) as [rest|] eqn:A.
    + exact (after_last_lacks_needle _ _ _ _ A).
    + now apply after_last_none_iff.
  - destruct (Str.contains marker raw) eqn:R; [|reflexivity].
    apply contains_lower in R. congruence.
Qed.

(** The post-processing, case by case.  Without the marker in the
    lowercased text the raw text is kept as it is.  With the marker in lower
    case in the raw text, the segment is what follows its last occurrence,
    stripped.  With the marker in the raw text in another case only, the
    segment is the whole raw text, stripped. *)
Theorem clean_text_cases (raw : string) :
  (Str.contains marker (Str.lower raw) = false -> clean_text raw = raw) /\
  (forall pre post,
      raw = pre ++ marker ++ post ->
      Str.contains marker post = false ->
      clean_text raw = Str.strip post) /\
  (Str.contains marker (Str.lower raw) = true ->
   Str.contains marker raw = false ->
   clean_text raw = Str.strip raw).
Proof.
  split; [apply clean_text_unmarked|]. split.
  - intros pre post -> H. now apply clean_text_after_marker.
  - apply clean_text_marker_in_other_case.
Qed.

(** When the model echoes the prompt before its answer, only the prompt up
    to the marker is removed: the reply keeps the user's message in front of
    the answer (provided neither contains the marker). *)
Theorem clean_text_keeps_echoed_message (message answer : string) :
  Str.contains marker (message ++ answer) = false ->
  clean_text (prompt_of message ++ answer) = Str.strip (" " ++ message ++ answer).
Proof.
  intros H. unfold prompt_of.
  change "As a space expert, explain: " with ("As a space expert, " ++ marker ++ " ").
  rewrite !app_assoc_str.
  apply clean_text_after_marker.
  cbn [append Str.contains]. rewrite H. rewrite orb_false_r. reflexivity.
Qed.

Lemma clean_text_keeps_echoed_message_witness :
  clean_text (prompt_of "Why is Mars red?" ++ " Because of iron oxide. ")
  = "Why is Mars red? Because of iron oxide.".
Proof.
  apply (clean_text_keeps_echoed_message "Why is Mars red?" " Because of iron oxide. ").
  reflexivity.
Defined.

Section ChatMore.

Variable self : SpaceImageExplorer.
Variable rnd : nat.
Variable message : string.

Lemma fun_fact_drawn :
  exists fact,
    nth_error fun_facts (rnd mod 3) = Some fact /\
    In fact fun_facts /\
    Py.random_choice rnd fun_facts = Ok fact.
Proof.
  unfold Py.random_choice. change (List.length fun_facts) with 3.
  destruct (nth_error fun_facts (rnd mod 3)) as [fact|] eqn:E.
  - exists fact. repeat split. eapply nth_error_In, E.
  - apply nth_error_None in E. change (List.length fun_facts) with 3 in E.
    assert (rnd mod 3 < 3) by (apply Nat.mod_upper_bound; lia). lia.
Qed.

(** When the tokenizer and the model return, the reply is made of what
    [decode] returned.  A text gives the rocket line with the cleaned text
    and the fun fact the number drawn selects; anything that is not a text
    gives the apology with the [AttributeError] of [.lower()]. *)
Theorem chat_reply_from_decoded
  (inputs : encoding self) (ids : tensor self) (pad : pyval)
  (outputs : batch self) (first : tensor self) (decoded : pyval) :
  tokenizer_call self (prompt_of message) = Ok inputs ->
  encoding_getitem self inputs "input_ids" = Ok ids ->
  pad_token_id self = Ok pad ->
  model_generate self ids pad = Ok outputs ->
  batch_getitem0 self outputs = Ok first ->
  tokenizer_decode self first = Ok decoded ->
  exists fact,
    nth_error fun_facts (rnd mod 3) = Some fact /\
    chat_with_space_expert self rnd message =
      Ok match decoded with
         | PStr raw =>
             "🚀 " ++ clean_text raw ++ Str.newline ++ Str.newline ++
             "✨ Fun Fact: " ++ fact
         | _ =>
             "Houston, we have a problem! 🚀 Please try asking that question differently. Error: '"
             ++ Py.type_name decoded ++ "' object has no attribute 'lower'"
         end.
Proof.
  intros H1 H2 H3 H4 H5 H6.
  destruct fun_fact_drawn as (fact & Hn & _ & Hc). exists fact.
  split; [exact Hn|].
  unfold chat_with_space_expert, chat_try. cbv zeta.
  rewrite H1; simpl. rewrite H2; simpl. rewrite H3; simpl. rewrite H4; simpl.
  rewrite H5; simpl. rewrite H6; simpl.
  destruct decoded; simpl; try reflexivity. rewrite Hc. reflexivity.
Qed.

Lemma chat_try_ok_inv (reply : string) :
  chat_try self rnd message = Ok reply ->
  exists raw fact,
    In fact fun_facts /\ reply = format_response (clean_text raw) fact.
Proof.
  intros T. unfold chat_try in T. cbv zeta in T. inv_bind T.
  destruct a4; try discriminate. injection E5 as <-.
  injection T as <-. exists s, a6. split; [|reflexivity].
  unfold Py.random_choice in E6.
  destruct (nth_error fun_facts (rnd mod List.length fun_facts)) eqn:N;
    [|discriminate].
  injection E6 as <-. eapply nth_error_In, N.
Qed.

Lemma chat_reply_not_empty (reply : string) :
  chat_with_space_expert self rnd message = Ok reply -> reply <> "".
Proof.
  unfold chat_with_space_expert.
  destruct (chat_try self rnd message) as [r|e] eqn:T; intros H;
    injection H as <-; [|discriminate].
  destruct (chat_try_ok_inv _ T) as (raw & fact & _ & ->). discriminate.
Qed.

(** Every reply is displayable: it is not empty, and it is either the
    rocket line built from a cleaned text and a fun fact of the table, or
    the apology for some exception. *)
Theorem chat_reply_shape :
  exists reply,
    chat_with_space_expert self rnd message = Ok reply /\
    reply <> "" /\
    ((exists raw fact,
         In fact fun_facts /\ reply = format_response (clean_text raw) fact) \/
     (exists e, reply = apology e)).
Proof.
  unfold chat_with_space_expert.
  destruct (chat_try self rnd message) as [reply|e] eqn:T.
  - exists reply. split; [reflexivity|].
    destruct (chat_try_ok_inv _ T) as (raw & fact & Hin & ->).
    split; [discriminate|]. left. eauto.
  - exists (apology e). split; [reflexivity|]. split; [discriminate|]. eauto.
Qed.

End ChatMore.

Lemma chat_reply_from_decoded_witness :
  chat_with_space_expert (stub_explorer (Ok tt) (Ok PNone)) 5 "Tell me about Mars!"
  = Ok "Houston, we have a problem! 🚀 Please try asking that question differently. Error: 'NoneType' object has no attribute 'lower'".
Proof.
  destruct (chat_reply_from_decoded (stub_explorer (Ok tt) (Ok PNone)) 5
              "Tell me about Mars!" tt tt PNone tt tt PNone
              eq_refl eq_refl eq_refl eq_refl eq_refl eq_refl) as (fact & _ & E).
  exact E.
Defined.

(** ** The interface callbacks *)

Section Callbacks.

Variable container_str : pyval -> string.
Variable explorer : SpaceImageExplorer.
Variable requests_get : http_client.

(** Unless the request is answered with status 200 and a JSON object,
    [fetch_daily] shows no image and the two fixed lines; the error text of
    the handler is not shown. *)
Theorem fetch_daily_failed :
  (forall r body,
      requests_get (apod_url explorer) = Ok r ->
      status_code r = 200%Z ->
      json r <> Ok (PDict body)) ->
  Ui.fetch_daily container_str explorer requests_get =
    (PNone, "Couldn't fetch today's image", "Please try again in a moment").
Proof.
  intros H. unfold Ui.fetch_daily.
  destruct (get_daily_nasa_image explorer requests_get) as [img|err] eqn:E;
    [|reflexivity].
  assert (S : daily_success (get_daily_nasa_image explorer requests_get) = true)
    by now rewrite E.
  apply daily_success_inv in S.
  destruct S as (r & body & Ho & Hs & Hj). now elim (H r body Ho Hs).
Qed.

(** On a 200 answer with a JSON object, [fetch_daily] shows the fields as
    an f-string prints them: a missing title gives the heading [# None],
    and a missing url gives no image, as a failure does. *)
Theorem fetch_daily_shown (r : response) (body : list (string * pyval)) :
  requests_get (apod_url explorer) = Ok r ->
  status_code r = 200%Z ->
  json r = Ok (PDict body) ->
  exists image heading text,
    Ui.fetch_daily container_str explorer requests_get = (image, heading, text) /\
    (Py.lookup "url" body = None -> image = PNone) /\
    (forall v, Py.lookup "url" body = Some v -> image = v) /\
    (Py.lookup "title" body = None -> heading = "# None") /\
    (forall t, Py.lookup "title" body = Some (PStr t) -> heading = "# " ++ t) /\
    (Py.lookup "explanation" body = None ->
       text = "### What are we looking at?" ++ Str.newline ++ "None") /\
    (forall t, Py.lookup "explanation" body = Some (PStr t) ->
       text = "### What are we looking at?" ++ Str.newline ++ t).
Proof.
  intros Ho Hs Hj. unfold Ui.fetch_daily, get_daily_nasa_image,
    get_daily_nasa_image_try.
  rewrite Ho. simpl. rewrite Hs, Hj. simpl.
  do 3 eexists. split; [reflexivity|].
  repeat split; intros; repeat match goal with
                               | E : Py.lookup _ body = _ |- _ => rewrite E
                               end; reflexivity.
Qed.

Variable query : string.

(** The gallery of [search_images] never holds more than five urls; it is
    empty exactly when the text is [No images found. Try a different
    search!]; and a search that failed is shown like a search that found
    nothing. *)
Theorem ui_search_images_gallery :
  let shown := Ui.search_images requests_get query in
  List.length (fst shown) <= 5 /\
  (fst shown = [] <-> snd shown = "No images found. Try a different search!") /\
  (search_success (search_nasa_images requests_get query) = false ->
   shown = ([], "No images found. Try a different search!")) /\
  (forall imgs,
      search_nasa_images requests_get query = SearchOk imgs ->
      fst shown = map item_url imgs).
Proof.
  unfold Ui.search_images. cbv zeta.
  destruct (search_nasa_images requests_get query) as [[|img more]|err] eqn:E.
  - simpl. repeat split; intros; try reflexivity; try lia.
    now injection H as <-.
  - assert (L : List.length (img :: more) <= 5).
    { destruct (search_ok_inv _ _ _ E)
        as (r & data & _ & _ & _ & [(items & _ & C)|N]); [|discriminate].
      exact (collect_images_length _ _ C). }
    cbn [fst snd]. rewrite length_map.
    repeat split; intros; try discriminate; try assumption.
    now injection H as <-.
  - simpl. repeat split; intros; try reflexivity; try lia. discriminate.
Qed.

Variable rnd : nat.

(** [respond] never raises: it empties the text box and appends one turn
    to the history, the message with a reply that is not empty; the turns
    before it are kept. *)
Theorem respond_appends_turn (message : string) (history : list (string * string)) :
  exists reply,
    chat_with_space_expert explorer rnd message = Ok reply /\
    reply <> "" /\
    Ui.respond explorer rnd message history =
      Ok ("", (history ++ [(message, reply)])%list).
Proof.
  destruct (chat_with_space_expert explorer rnd message) as [reply|e] eqn:E.
  - exists reply. split; [reflexivity|].
    split; [exact (chat_reply_not_empty _ _ _ _ E)|].
    unfold Ui.respond. rewrite E. reflexivity.
  - unfold chat_with_space_expert in E.
    destruct (chat_try explorer rnd message); discriminate.
Qed.

Variable now : Py.datetime.

Lemma weather_conditions_shape (w : WeatherResult) :
  get_space_weather explorer requests_get rnd now = Ok w ->
  time w = Py.strftime_I_M_p now /\
  exists e1 v1 v2 e3 v3,
    conditions w =
      [ {| label := "Current Activity"; value := v1; emoji := e1 |};
        {| label := "Solar Activity"; value := v2; emoji := "🌞" |};
        {| label := "Aurora Forecast"; value := v3; emoji := e3 |} ].
Proof.
  intros H. destruct (get_space_weather_cases explorer requests_get rnd now)
    as (w' & E & Hc).
  rewrite E in H. injection H as ->.
  destruct Hc as [(data & Hf)|(sc & Hin & ->)].
  - unfold _format_real_weather in Hf. inv_bind Hf. injection Hf as <-.
    simpl. split; [reflexivity|]. do 5 eexists. reflexivity.
  - split; [reflexivity|].
    repeat (destruct Hin as [<-|Hin]; [simpl; do 5 eexists; reflexivity|]).
    destruct Hin.
Qed.

(** [update_weather] never raises and always fills the page: the status
    as a heading, the description as plain text, the time line with the
    current time, and a table of three rows headed by the emoji and the
    label of Current Activity, Solar Activity (always with the sun) and
    Aurora Forecast, in this order. *)
Theorem update_weather_table :
  exists w text e1 v1 v2 e3 v3,
    get_space_weather explorer requests_get rnd now = Ok w /\
    description w = PStr text /\
    Ui.update_weather container_str explorer requests_get rnd now =
      Ok ("# " ++ status w,
          text,
          "Last updated: " ++ Py.strftime_I_M_p now,
          [ (e1 ++ " Current Activity", v1);
            ("🌞 Solar Activity", v2);
            (e3 ++ " Aurora Forecast", v3) ]).
Proof.
  destruct (get_space_weather_cases explorer requests_get rnd now) as (w & E & _).
  destruct (weather_description_text _ _ _ _ _ E) as [text Hd].
  destruct (weather_conditions_shape w E) as (Ht & e1 & v1 & v2 & e3 & v3 & Hc).
  exists w, text, e1, v1, v2, e3, v3. split; [exact E|]. split; [exact Hd|].
  unfold Ui.update_weather. rewrite E. simpl. rewrite Hd, Ht, Hc. reflexivity.
Qed.

End Callbacks.

Lemma fetch_daily_failed_witness :
  Ui.fetch_daily (fun _ => "") (stub_explorer (Ok tt) (Ok PNone))
    (always (Ok {| status_code := 500; json := Ok (PDict []) |}))
  = (PNone, "Couldn't fetch today's image", "Please try again in a moment").
Proof.
  apply (fetch_daily_failed (fun _ => "") (stub_explorer (Ok tt) (Ok PNone))
           (always (Ok {| status_code := 500; json := Ok (PDict []) |}))).
  intros r body Hr Hs. injection Hr as <-. discriminate.
Defined.

Lemma fetch_daily_shown_witness :
  exists image heading text,
    Ui.fetch_daily (fun _ => "") (stub_explorer (Ok tt) (Ok PNone))
      (always (ok_json (PDict [("url", PStr "https://apod/today.jpg")])))
    = (image, heading, text) /\
    image = PStr "https://apod/today.jpg" /\ heading = "# None".
Proof.
  destruct (fetch_daily_shown (fun _ => "") (stub_explorer (Ok tt) (Ok PNone))
              (always (ok_json (PDict [("url", PStr "https://apod/today.jpg")])))
              _ _ eq_refl eq_refl eq_refl)
    as (image & heading & text & E & _ & Hu & Ht & _).
  exists image, heading, text. split; [exact E|].
  split; [apply Hu | apply Ht]; reflexivity.
Defined.

(** ** Start-up *)

Lemma getenv_unset (env : list (string * string)) (k default : string) :
  (forall v, ~ In (k, v) env) -> getenv env k default = default.
Proof.
  induction env as [|[k' v'] env IH]; intros H; [reflexivity|]. simpl.
  destruct (String.eqb_spec k k') as [->|_].
  - elim (H v'). left. reflexivity.
  - apply IH. intros v Hin. apply (H v). right. exact Hin.
Qed.


(** When the model loads, the page greets the user named by [USER], or
    [Guest], and the daily-image and weather requests carry the key of
    [NASA_API_KEY]; with that variable unset they carry [DEMO_KEY]. *)
Theorem create_interface_key
  (env : list (string * string)) (from_pretrained : result Pretrained) (m : Pretrained) :
  from_pretrained = Ok m ->
  exists explorer,
    create_interface env from_pretrained =
      Blocks (header (getenv env "USER" "Guest")) explorer /\
    apod_url explorer =
      "https://api.nasa.gov/planetary/apod?api_key=" ++
      getenv env "NASA_API_KEY" "DEMO_KEY" /\
    weather_url explorer =
      "https://api.nasa.gov/DONKI/notifications?api_key=" ++
      getenv env "NASA_API_KEY" "DEMO_KEY" /\
    ((forall v, ~ In ("NASA_API_KEY", v) env) ->
     apod_url explorer = "https://api.nasa.gov/planetary/apod?api_key=DEMO_KEY" /\
     weather_url explorer = "https://api.nasa.gov/DONKI/notifications?api_key=DEMO_KEY").
Proof.
  intros ->. eexists. split; [reflexivity|].
  unfold apod_url, weather_url. simpl.
  repeat split; try reflexivity; rewrite (getenv_unset _ _ _ H); reflexivity.
Qed.


Lemma create_interface_key_witness :
  exists explorer,
    create_interface [("USER", "ada")] (Ok stub_pretrained) =
      Blocks (header "ada") explorer /\
    apod_url explorer = "https://api.nasa.gov/planetary/apod?api_key=DEMO_KEY".
Proof.
  destruct (create_interface_key [("USER", "ada")] (Ok stub_pretrained)
              stub_pretrained eq_refl) as (explorer & E & _ & _ & H).
  exists explorer. split; [exact E|]. apply H.
  intros v [Hin|[]]. discriminate.
Defined.

Lemma get_space_weather_not_a_list_witness :
  exists w,
    get_space_weather (stub_explorer (Ok tt) (Ok PNone))
      (always (ok_json (PDict [("error", PStr "OVER_RATE_LIMIT")])))
      0 {| Py.hour := 12; Py.minute := 0 |} = Ok w /\
    Shape.fallback 0 {| Py.hour := 12; Py.minute := 0 |} w.
Proof.
  apply (get_space_weather_not_a_list
           (stub_explorer (Ok tt) (Ok PNone))
           (always (ok_json (PDict [("error", PStr "OVER_RATE_LIMIT")])))
           0 {| Py.hour := 12; Py.minute := 0 |} _ _ eq_refl eq_refl eq_refl).
  discriminate.
Defined.

Lemma clean_text_cases_witness :
  clean_text "Sure! EXPLAIN: then explain:  the Sun is a star. " = "the Sun is a star.".
Proof.
  apply (proj1 (proj2 (clean_text_cases
                         "Sure! EXPLAIN: then explain:  the Sun is a star. "))
           "Sure! EXPLAIN: then " "  the Sun is a star. ");
    reflexivity.
Defined.
